(** * greengrids: emission store, emission generator and stage result views

  A shallow embedding of [emission_utils.py] and [dispersion_utils.py].

  Modelling conventions.
  - A Python [dict] is an association list in insertion order; [getitem]
    reads the first binding of a key and [setitem] overwrites it in place
    or appends a new binding, as Python does.
  - A value decoded by [json.load] is a [json]; Python [int] and [float]
    are kept apart ([PyInt], [PyFloat]); floats are idealised as exact
    rationals (no binary rounding, no infinities or NaN).
  - A function body that can raise returns a [result]; [try: ... except
    Exception] is [try_except].
  - The persisted state file, and the generator behind [random.random()],
    are explicit state.  What the handlers [print] is not modelled. *)

From Stdlib Require Import List String Ascii ZArith QArith Qround Qabs Bool Lia Lqa.
Import ListNotations.
Open Scope string_scope.

(** ** Python values and exceptions *)

Set Warnings "-register-all".

Module Py.

Inductive number : Type :=
| PyInt (z : Z)
| PyFloat (q : Q).

Inductive json : Type :=
| JNull
| JBool (b : bool)
| JNum (n : number)
| JStr (s : string)
| JArr (l : list json)
| JObj (l : list (string * json)).

Definition dict (A : Type) : Type := list (string * A).

Inductive exn_class : Type :=
| OSError | JSONDecodeError | TypeError | AttributeError
| ZeroDivisionError | KeyError.

(** An exception: its class and the text [str(e)] gives. *)
Inductive exn : Type :=
| Exn (cls : exn_class) (text : string).

Definition str_exn (e : exn) : string :=
  match e with Exn _ text => text end.

Inductive result (A : Type) : Type :=
| Returns (a : A)
| Raises (e : exn).
Arguments Returns {A} a.
Arguments Raises {A} e.

Definition bind {A B} (r : result A) (k : A -> result B) : result B :=
  match r with
  | Returns a => k a
  | Raises e => Raises e
  end.

(** [try: body except Exception as e: handler e] *)
Definition try_except {A} (body : result A) (handler : exn -> A) : A :=
  match body with
  | Returns a => a
  | Raises e => handler e
  end.

(** *** dict operations *)

Fixpoint getitem {A} (k : string) (d : dict A) : option A :=
  match d with
  | [] => None
  | (k', v) :: d' => if String.eqb k k' then Some v else getitem k d'
  end.

Fixpoint setitem {A} (k : string) (v : A) (d : dict A) : dict A :=
  match d with
  | [] => [(k, v)]
  | (k', v') :: d' =>
      if String.eqb k k' then (k, v) :: d' else (k', v') :: setitem k v d'
  end.

Definition keys {A} (d : dict A) : list string := map fst d.
Definition values {A} (d : dict A) : list A := map snd d.

(** [k in d] for a dict [d] *)
Definition contains {A} (k : string) (d : dict A) : bool :=
  match getitem k d with Some _ => true | None => false end.

(** [d.update(other)] *)
Definition update {A} (d other : dict A) : dict A :=
  fold_left (fun acc kv => setitem (fst kv) (snd kv) acc) other d.

(** *** operations on decoded JSON values *)

Definition type_name (v : json) : string :=
  match v with
  | JNull => "NoneType"
  | JBool _ => "bool"
  | JNum (PyInt _) => "int"
  | JNum (PyFloat _) => "float"
  | JStr _ => "str"
  | JArr _ => "list"
  | JObj _ => "dict"
  end.

Definition is_substring (needle hay : string) : bool :=
  match String.index 0 needle hay with Some _ => true | None => false end.

Definition eq_str (s : string) (v : json) : bool :=
  match v with JStr s' => String.eqb s s' | _ => false end.

(** [s in v] for a string [s]: key membership on a dict, substring on a
    string, element membership on a list, TypeError otherwise. *)
Definition py_in (s : string) (v : json) : result bool :=
  match v with
  | JObj d => Returns (contains s d)
  | JStr t => Returns (is_substring s t)
  | JArr l => Returns (existsb (eq_str s) l)
  | _ => Raises (Exn TypeError
                   ("argument of type '" ++ type_name v ++ "' is not iterable"))
  end.

Definition no_attribute (v : json) (attr : string) : exn :=
  Exn AttributeError
      ("'" ++ type_name v ++ "' object has no attribute '" ++ attr ++ "'").

(** [v.get(k, default)] *)
Definition py_get (v : json) (k : string) (default : json) : result json :=
  match v with
  | JObj d => Returns (match getitem k d with Some x => x | None => default end)
  | _ => Raises (no_attribute v "get")
  end.

(** [v.update(other)]; the result is the mutated dict. *)
Definition py_update (v : json) (other : dict json) : result (dict json) :=
  match v with
  | JObj d => Returns (update d other)
  | _ => Raises (no_attribute v "update")
  end.

Definition as_number (v : json) : option Q :=
  match v with
  | JNum (PyInt z) => Some (inject_Z z)
  | JNum (PyFloat q) => Some q
  | JBool b => Some (if b then 1 else 0)%Q
  | _ => None
  end.

(** [a / b] *)
Definition truediv (a b : json) : result Q :=
  match as_number a, as_number b with
  | Some x, Some y =>
      if Qeq_bool y 0 then Raises (Exn ZeroDivisionError "division by zero")
      else Returns (x / y)%Q
  | _, _ =>
      Raises (Exn TypeError
                ("unsupported operand type(s) for /: '" ++ type_name a
                   ++ "' and '" ++ type_name b ++ "'"))
  end.

(** Round to the nearest integer, ties to the even one. *)
Definition round_half_even (q : Q) : Z :=
  let f := Qfloor q in
  match Qcompare (q - inject_Z f) (1 # 2) with
  | Lt => f
  | Gt => (f + 1)%Z
  | Eq => if Z.even f then f else (f + 1)%Z
  end.

(** [round(q, 2)] *)
Definition round2 (q : Q) : Q :=
  Qmake (round_half_even (q * 100)) 100.

(** [sum(xs)] over floats *)
Definition sum (xs : list Q) : Q := fold_left Qplus xs 0%Q.

End Py.
Export Py.

Notation "x <- c ;; k" := (bind c (fun x => k))
(at level 61, c at next level, right associativity).

(** ** The persisted state file and the random generator *)

Module Store.

(** year -> district name -> the value stored for it.  A district's value
    is a record (a JSON object) when the file is well formed; the reserved
    key [timestamp] of a year carries a non-record value. *)
Definition store : Type := dict (dict json).

(** What [open(path, 'r')] followed by [json.load] meets: a document of
    the StateStore shape, or a file whose opening or decoding raises
    (missing, unreadable, not valid JSON). *)
Inductive file_state : Type :=
| Document (data : store)
| Unavailable (e : exn).

(** [writable] tells whether [open(path, 'w')] succeeds. *)
Record filesystem : Type := {
  state_file : file_state;
  writable : bool
}.

(** [with open(path, 'r') as f: json.load(f)] *)
Definition read_json (fs : filesystem) : result store :=
  match state_file fs with
  | Document data => Returns data
  | Unavailable e => Raises e
  end.

(** [with open(path, 'w') as f: json.dump(data, f, indent=4)] *)
Definition write_json (data : store) (fs : filesystem) : result unit * filesystem :=
  if writable fs
  then (Returns tt, {| state_file := Document data; writable := true |})
  else (Raises (Exn OSError "[Errno 13] Permission denied"), fs).

(** The generator behind [random.random()]: the sequence of values it
    will return, and how many have been drawn. *)
Record rng_state : Type := {
  random_seq : nat -> Q;
  position : nat
}.

Definition random_random (g : rng_state) : Q * rng_state :=
  (random_seq g (position g),
   {| random_seq := random_seq g; position := S (position g) |}).

(** [random.uniform(a, b)] is [a + (b - a) * random()]. *)
Definition random_uniform (a b : Q) (g : rng_state) : Q * rng_state :=
  let (u, g') := random_random g in ((a + (b - a) * u)%Q, g').

Record world : Type := {
  fs : filesystem;
  rng : rng_state
}.

End Store.
Export Store.

(** ** emission_utils.py *)

Module emission_utils.

Inductive district_type : Type := urban | rural | suburban.

Record range : Type := { min : Z; max : Z }.

Record emission_ranges : Type := {
  transport : range;
  industrial : range;
  residential : range
}.

Definition EMISSION_CONFIG (t : district_type) : emission_ranges :=
  match t with
  | urban =>
      {| transport := {| min := 1500; max := 3000 |};
         industrial := {| min := 2000; max := 5000 |};
         residential := {| min := 800; max := 1500 |} |}
  | rural =>
      {| transport := {| min := 200; max := 800 |};
         industrial := {| min := 100; max := 1000 |};
         residential := {| min := 1000; max := 2500 |} |}
  | suburban =>
      {| transport := {| min := 800; max := 1800 |};
         industrial := {| min := 500; max := 2000 |};
         residential := {| min := 900; max := 1800 |} |}
  end.

Definition DISTRICT_TYPES : dict district_type :=
  [ ("Bengaluru Urban", urban);
    ("Bangalore North", urban);
    ("Bangalore East", urban);
    ("Bangalore South", urban);
    ("Defence Colony", urban);
    ("Anekal", urban);
    ("Yelahanka taluku", urban);
    ("Thanisandra", urban);
    ("Herohalli", urban);
    ("Nagadevanahalli", urban);
    ("Uttarahalli", urban);
    ("Vasanthpura", urban);
    ("Yelchenahalli", urban);
    ("Jaraganahalli", urban);
    ("Puttenahalli", urban);
    ("Bilekhalli", urban);
    ("Kodichikkanahalli", urban);
    ("Hosakote", suburban);
    ("Devanahalli", suburban);
    ("Doddaballapura", suburban);
    ("Nelmangala", suburban);
    ("Ramanagara", suburban);
    ("Chikkaballapura", suburban);
    ("Kolar", suburban);
    ("Tumakuru", suburban);
    ("default", rural) ].

(** [DISTRICT_TYPES.get(district, DISTRICT_TYPES['default'])] *)
Definition classify (district : string) : district_type :=
  match getitem district DISTRICT_TYPES with
  | Some t => t
  | None => match getitem "default" DISTRICT_TYPES with
            | Some t => t
            | None => rural
            end
  end.

Definition uniform_round2 (r : range) (g : rng_state) : Q * rng_state :=
  let (x, g') := random_uniform (inject_Z (min r)) (inject_Z (max r)) g in
  (round2 x, g').

Definition get_random_emission (t : district_type) (g : rng_state)
  : dict Q * rng_state :=
  let config := EMISSION_CONFIG t in
  let (te, g1) := uniform_round2 (transport config) g in
  let (ie, g2) := uniform_round2 (industrial config) g1 in
  let (re, g3) := uniform_round2 (residential config) g2 in
  ([ ("transport_emission", te);
     ("industrial_emission", ie);
     ("residential_emission", re) ], g3).

(** The handler's [print] is not modelled. *)
Definition load_emission_data (fs : filesystem) : store :=
  try_except (read_json fs) (fun _ => []).

Definition save_emission_data (data : store) (fs : filesystem)
  : bool * filesystem :=
  match write_json data fs with
  | (Returns _, fs') => (true, fs')
  | (Raises _, fs') => (false, fs')
  end.

Record breakdown : Type := {
  transport_percentage : Q;
  industrial_percentage : Q;
  residential_percentage : Q
}.

Record emission_view : Type := {
  ev_district : string;
  ev_year : string;
  ev_transport_emission : json;
  ev_industrial_emission : json;
  ev_residential_emission : json;
  ev_total_emission : json;
  ev_breakdown : breakdown
}.

Definition float_json (q : Q) : json := JNum (PyFloat q).
Definition int_json (z : Z) : json := JNum (PyInt z).

(** [round((district_data.get(field, 0) / district_data.get("total_emission", 1)) * 100, 2)] *)
Definition percentage (district_data : json) (field : string) : result Q :=
  a <- py_get district_data field (int_json 0) ;;
  b <- py_get district_data "total_emission" (int_json 1) ;;
  q <- truediv a b ;;
  Returns (round2 (q * 100)).

(** The body of the [try] in [get_emission_by_district]. *)
Definition get_emission_by_district_body
  (district_name year : string) (fs : filesystem) : result (option emission_view) :=
  let data := load_emission_data fs in
  match getitem year data with
  | None => Returns None
  | Some year_data =>
      match getitem district_name year_data with
      | None => Returns None
      | Some district_data =>
          has_total <- py_in "total_emission" district_data ;;
          if negb has_total then Returns None
          else
            te <- py_get district_data "transport_emission" (int_json 0) ;;
            ie <- py_get district_data "industrial_emission" (int_json 0) ;;
            re <- py_get district_data "residential_emission" (int_json 0) ;;
            tot <- py_get district_data "total_emission" (int_json 0) ;;
            tp <- percentage district_data "transport_emission" ;;
            ip <- percentage district_data "industrial_emission" ;;
            rp <- percentage district_data "residential_emission" ;;
            Returns (Some
              {| ev_district := district_name;
                 ev_year := year;
                 ev_transport_emission := te;
                 ev_industrial_emission := ie;
                 ev_residential_emission := re;
                 ev_total_emission := tot;
                 ev_breakdown :=
                   {| transport_percentage := tp;
                      industrial_percentage := ip;
                      residential_percentage := rp |} |})
      end
  end.

Definition get_emission_by_district
  (district_name year : string) (fs : filesystem) : option emission_view :=
  try_except (get_emission_by_district_body district_name year fs)
             (fun _ => None).

(** The [for district_name in data[year]] loop of
    [get_all_districts_emission_data]; the returned dict is never empty,
    so [if emission_data] is the test for [None]. *)
Fixpoint collect_emissions (names : list string) (year : string)
  (fs : filesystem) (districts : list emission_view) : list emission_view :=
  match names with
  | [] => districts
  | district_name :: rest =>
      if String.eqb district_name "timestamp"
      then collect_emissions rest year fs districts
      else
        match get_emission_by_district district_name year fs with
        | Some emission_data =>
            collect_emissions rest year fs (districts ++ [emission_data])
        | None => collect_emissions rest year fs districts
        end
  end.

Definition get_all_districts_emission_data (year : string) (fs : filesystem)
  : list emission_view :=
  try_except
    (let data := load_emission_data fs in
     match getitem year data with
     | None => Returns []
     | Some year_data => Returns (collect_emissions (keys year_data) year fs [])
     end)
    (fun _ => []).

(** One pass of the inner loop body of [add_emission_data_to_json] on
    [data[year]]. *)
Definition visit_district (district : string) (year_data : dict json)
  (g : rng_state) : result (dict json) * rng_state :=
  if String.eqb district "timestamp" then (Returns year_data, g)
  else
    match getitem district year_data with
    | None => (Raises (Exn KeyError district), g)
    | Some record =>
        match py_in "total_emission" record with
        | Raises e => (Raises e, g)
        | Returns true => (Returns year_data, g)
        | Returns false =>
            let district_type := classify district in
            let (emissions, g') := get_random_emission district_type g in
            let total_emission := sum (values emissions) in
            match py_update record (map (fun kv => (fst kv, float_json (snd kv))) emissions) with
            | Raises e => (Raises e, g')
            | Returns record' =>
                let record'' :=
                  setitem "total_emission" (float_json (round2 total_emission)) record' in
                (Returns (setitem district (JObj record'') year_data), g')
            end
        end
    end.

(** [for district in data[year]: ...] *)
Fixpoint visit_districts (districts : list string) (year_data : dict json)
  (g : rng_state) : result (dict json) * rng_state :=
  match districts with
  | [] => (Returns year_data, g)
  | district :: rest =>
      match visit_district district year_data g with
      | (Returns year_data', g') => visit_districts rest year_data' g'
      | (Raises e, g') => (Raises e, g')
      end
  end.

(** [for year in data: ...] *)
Fixpoint visit_years (years : list string) (data : store) (g : rng_state)
  : result store * rng_state :=
  match years with
  | [] => (Returns data, g)
  | year :: rest =>
      match getitem year data with
      | None => (Raises (Exn KeyError year), g)
      | Some year_data =>
          match visit_districts (keys year_data) year_data g with
          | (Returns year_data', g') =>
              visit_years rest (setitem year year_data' data) g'
          | (Raises e, g') => (Raises e, g')
          end
      end
  end.

Definition add_emission_data_to_json (w : world) : bool * world :=
  let data := load_emission_data (fs w) in
  match visit_years (keys data) data (rng w) with
  | (Returns data', g') =>
      let (ok, fs') := save_emission_data data' (fs w) in
      (ok, {| fs := fs'; rng := g' |})
  | (Raises _, g') => (false, {| fs := fs w; rng := g' |})
  end.

End emission_utils.
Export emission_utils.

(** ** dispersion_utils.py *)

Module dispersion_utils.

(** The arguments handed to [node dispersionModel.js]; each stands for
    its [str()] rendering on the command line. *)
Record kernel_args : Type := {
  arg_steps : Z;
  arg_wind_speed : number;
  arg_wind_direction : string
}.

(** What [subprocess.run(..., capture_output=True, text=True)] returns. *)
Record completed_process : Type := {
  returncode : Z;
  stdout : string;
  stderr : string
}.

(** The external diffusion kernel: a separate process that may rewrite the
    state file, or fail to start (then [subprocess.run] raises). *)
Definition kernel : Type :=
  kernel_args -> filesystem -> result completed_process * filesystem.

Record wind : Type := { speed : number; direction : string }.

Record simulation_params : Type := {
  sp_steps : Z;
  sp_wind : wind;
  sp_year : string
}.

Record dispersion_entry : Type := {
  de_district : string;
  de_year : string;
  initial_concentration : json;
  final_concentration : json;
  de_total_emission : json;
  neighbors : list json
}.

(** The dict [run_dispersion_simulation] returns: [{'error': ...}] or
    [{'success': True, 'simulation_params': ..., 'results': ...,
    'total_districts': ...}]. *)
Inductive simulation_outcome : Type :=
| Failed (error : string)
| Succeeded (params : simulation_params) (results : list dispersion_entry)
            (total_districts : nat).

(** [for district_name, district_data in data[year].items(): ...] of
    [run_dispersion_simulation] (lines 29-40). *)
Fixpoint simulation_entries (items : dict json) (year : string)
  (results : list dispersion_entry) : result (list dispersion_entry) :=
  match items with
  | [] => Returns results
  | (district_name, district_data) :: rest =>
      if String.eqb district_name "timestamp"
      then simulation_entries rest year results
      else
        ic <- py_get district_data "co2_concentration" (int_json 0) ;;
        fc <- py_get district_data "co2_concentration_after_dispersion" (int_json 0) ;;
        te <- py_get district_data "total_emission" (int_json 0) ;;
        simulation_entries rest year
          (results ++ [ {| de_district := district_name;
                           de_year := year;
                           initial_concentration := ic;
                           final_concentration := fc;
                           de_total_emission := te;
                           neighbors := [] |} ])
  end.

(** The same loop as written in [get_dispersion_results] (lines 67-78). *)
Fixpoint stored_entries (items : dict json) (year : string)
  (results : list dispersion_entry) : result (list dispersion_entry) :=
  match items with
  | [] => Returns results
  | (district_name, district_data) :: rest =>
      if String.eqb district_name "timestamp"
      then stored_entries rest year results
      else
        ic <- py_get district_data "co2_concentration" (int_json 0) ;;
        fc <- py_get district_data "co2_concentration_after_dispersion" (int_json 0) ;;
        te <- py_get district_data "total_emission" (int_json 0) ;;
        stored_entries rest year
          (results ++ [ {| de_district := district_name;
                           de_year := year;
                           initial_concentration := ic;
                           final_concentration := fc;
                           de_total_emission := te;
                           neighbors := [] |} ])
  end.

Section Runner.

Variable node_dispersionModel : kernel.

Definition run_dispersion_simulation
  (steps : Z) (wind_speed : number) (wind_direction year : string)
  (fs0 : filesystem) : simulation_outcome * filesystem :=
  let (ran, fs1) :=
    node_dispersionModel
      {| arg_steps := steps;
         arg_wind_speed := wind_speed;
         arg_wind_direction := wind_direction |} fs0 in
  (try_except
     (result <- ran ;;
      if negb (Z.eqb (returncode result) 0)
      then Returns (Failed ("Dispersion simulation failed: " ++ stderr result))
      else
        data <- read_json fs1 ;;
        results <- match getitem year data with
                   | Some year_data => simulation_entries year_data year []
                   | None => Returns []
                   end ;;
        Returns (Succeeded
                   {| sp_steps := steps;
                      sp_wind := {| speed := wind_speed;
                                    direction := wind_direction |};
                      sp_year := year |}
                   results
                   (List.length results)))
     (fun e => Failed ("Error running dispersion simulation: " ++ str_exn e)),
   fs1).

End Runner.

Definition get_dispersion_results (year : string) (fs : filesystem)
  : list dispersion_entry :=
  try_except
    (data <- read_json fs ;;
     match getitem year data with
     | Some year_data => stored_entries year_data year []
     | None => Returns []
     end)
    (fun _ => []).

Record capture_view : Type := {
  cv_district : string;
  cv_year : string;
  co2_before_capture : json;
  co2_after_capture : json;
  total_capture : json;
  percent_reduction : json;
  interventions : json;
  cv_total_emission : json
}.

(** [for district_name, district_data in data[year].items(): ...] of
    [get_capture_results]. *)
Fixpoint capture_entries (items : dict json) (year : string)
  (results : list capture_view) : result (list capture_view) :=
  match items with
  | [] => Returns results
  | (district_name, district_data) :: rest =>
      if String.eqb district_name "timestamp"
      then capture_entries rest year results
      else
        bc <- py_get district_data "co2_before_capture" (int_json 0) ;;
        ac <- py_get district_data "co2_after_capture" (int_json 0) ;;
        tc <- py_get district_data "total_capture" (int_json 0) ;;
        pr <- py_get district_data "percent_reduction" (int_json 0) ;;
        iv <- py_get district_data "interventions" (JObj []) ;;
        te <- py_get district_data "total_emission" (int_json 0) ;;
        capture_entries rest year
          (results ++ [ {| cv_district := district_name;
                           cv_year := year;
                           co2_before_capture := bc;
                           co2_after_capture := ac;
                           total_capture := tc;
                           percent_reduction := pr;
                           interventions := iv;
                           cv_total_emission := te |} ])
  end.

Definition get_capture_results (year : string) (fs : filesystem)
  : list capture_view :=
  try_except
    (data <- read_json fs ;;
     match getitem year data with
     | Some year_data => capture_entries year_data year []
     | None => Returns []
     end)
    (fun _ => []).

End dispersion_utils.
Export dispersion_utils.

(** ** dispersion_utils.py: the capture, workflow and comparison runners *)

Module dispersion_stages.

(** [subprocess.run(argv, capture_output=True, text=True, cwd=script_dir)]
    for a command line given by the Python values of its list.  The
    process may rewrite the state file; the call raises when the process
    cannot be started or an argument is not a string. *)
Definition subprocess : Type :=
  list json -> filesystem -> result completed_process * filesystem.

(** The dict [run_capture_simulation] and [run_complete_workflow]
    return: [{'error': ...}] or
    [{'success': True, 'scenario_name': ..., 'year': ...}]. *)
Inductive stage_outcome : Type :=
| StageFailed (error : string)
| StageSucceeded (scenario_name : json) (year : json).

(** The dict [compare_scenarios] returns: [{'error': ...}] or
    [{'success': True, 'scenario_names': ..., 'year': ...}]. *)
Inductive comparison_outcome : Type :=
| ComparisonFailed (error : string)
| ComparisonSucceeded (scenario_names : json) (year : json).

Definition characters (s : string) : list json :=
  map (fun c => JStr (String c EmptyString)) (list_ascii_of_string s).

(** [*v] inside a list display: the elements of a list, the characters
    of a string, the keys of a dict; TypeError otherwise. *)
Definition unpack (v : json) : result (list json) :=
  match v with
  | JArr l => Returns l
  | JStr s => Returns (characters s)
  | JObj d => Returns (map JStr (keys d))
  | _ => Raises (Exn TypeError
                   ("Value after * must be an iterable, not " ++ type_name v))
  end.

Section Runners.

Variable node : subprocess.

Definition run_capture_simulation (scenario_name year : json)
  (fs0 : filesystem) : stage_outcome * filesystem :=
  let (ran, fs1) :=
    node [JStr "node"; JStr "captureSimulation.js"; scenario_name; year] fs0 in
  (try_except
     (result <- ran ;;
      if negb (Z.eqb (returncode result) 0)
      then Returns (StageFailed ("Capture simulation failed: " ++ stderr result))
      else Returns (StageSucceeded scenario_name year))
     (fun e => StageFailed ("Error running capture simulation: " ++ str_exn e)),
   fs1).

(** [dispersion_config] and [capture_config] are accepted and not used. *)
Definition run_complete_workflow (scenario_name year : json)
  (dispersion_config capture_config : json)
  (fs0 : filesystem) : stage_outcome * filesystem :=
  let (ran, fs1) :=
    node [JStr "node"; JStr "dashboard.js"; scenario_name; year] fs0 in
  (try_except
     (result <- ran ;;
      if negb (Z.eqb (returncode result) 0)
      then Returns (StageFailed ("Complete workflow failed: " ++ stderr result))
      else Returns (StageSucceeded scenario_name year))
     (fun e => StageFailed ("Error running complete workflow: " ++ str_exn e)),
   fs1).

(** The argument list is built before the process is started: when
    unpacking [scenario_names] raises, nothing is run. *)
Definition compare_scenarios (scenario_names year : json)
  (fs0 : filesystem) : comparison_outcome * filesystem :=
  match unpack scenario_names with
  | Raises e =>
      (ComparisonFailed ("Error comparing scenarios: " ++ str_exn e), fs0)
  | Returns names =>
      let (ran, fs1) :=
        node (JStr "node" :: JStr "dashboard.js" :: names) fs0 in
      (try_except
         (result <- ran ;;
          if negb (Z.eqb (returncode result) 0)
          then Returns (ComparisonFailed
                          ("Scenario comparison failed: " ++ stderr result))
          else Returns (ComparisonSucceeded scenario_names year))
         (fun e => ComparisonFailed ("Error comparing scenarios: " ++ str_exn e)),
       fs1)
  end.

End Runners.

End dispersion_stages.
Export dispersion_stages.

(** ** app.py: the read-only API endpoints *)

Module app.

(** What the imports inside the endpoints meet. *)
Record environment : Type := {
  import_emission_utils : result unit;
  import_dispersion_utils : result unit
}.

(** The query parameters of the request. *)
Record request : Type := {
  args : dict string
}.

(** The JSON bodies the endpoints build. *)
Inductive payload : Type :=
| ErrorPayload (error : string)
| EmissionPayload (emission_data : emission_view)
| AllEmissionsPayload (year : string) (districts : list emission_view)
                      (total_districts : nat)
| DispersionResultsPayload (year : string) (results : list dispersion_entry)
                           (total_districts : nat)
| CaptureResultsPayload (scenario_name year : string)
                        (results : list capture_view) (total_districts : nat).

(** [jsonify(body), status]; a bare [jsonify(body)] has status 200. *)
Record response : Type := {
  body : payload;
  status : Z
}.

(** [request.args.get('year', '2025')] *)
Definition year_arg (r : request) : string :=
  match getitem "year" (args r) with
  | Some y => y
  | None => "2025"
  end.

(** [load_emission_data()] of app.py: the two query functions, or
    [(None, None)] when the import raises; [true] stands for the
    functions. *)
Definition load_emission_data (env : environment) : bool :=
  try_except (_ <- import_emission_utils env ;; Returns true) (fun _ => false).

Definition load_dispersion_model (env : environment) : bool :=
  try_except (_ <- import_dispersion_utils env ;; Returns true) (fun _ => false).

Definition get_district_emissions (env : environment) (r : request)
  (district_name : string) (f : filesystem) : response :=
  try_except
    (if negb (load_emission_data env)
     then Returns {| body := ErrorPayload "Emission data module not available";
                     status := 500 |}
     else
       let year := year_arg r in
       match emission_utils.get_emission_by_district district_name year f with
       | None => Returns {| body := ErrorPayload "District not found";
                            status := 404 |}
       | Some emission_data =>
           Returns {| body := EmissionPayload emission_data; status := 200 |}
       end)
    (fun e => {| body := ErrorPayload (str_exn e); status := 500 |}).

Definition get_all_emissions (env : environment) (r : request)
  (f : filesystem) : response :=
  try_except
    (if negb (load_emission_data env)
     then Returns {| body := ErrorPayload "Emission data module not available";
                     status := 500 |}
     else
       let year := year_arg r in
       let all_emissions :=
         emission_utils.get_all_districts_emission_data year f in
       Returns {| body := AllEmissionsPayload year all_emissions
                            (List.length all_emissions);
                  status := 200 |})
    (fun e => {| body := ErrorPayload (str_exn e); status := 500 |}).

Definition get_dispersion_results (env : environment) (r : request)
  (f : filesystem) : response :=
  try_except
    (if negb (load_dispersion_model env)
     then Returns {| body := ErrorPayload "Dispersion model not available";
                     status := 500 |}
     else
       let year := year_arg r in
       let results := dispersion_utils.get_dispersion_results year f in
       Returns {| body := DispersionResultsPayload year results
                            (List.length results);
                  status := 200 |})
    (fun e => {| body := ErrorPayload (str_exn e); status := 500 |}).

Definition get_capture_results (env : environment) (r : request)
  (scenario_name : string) (f : filesystem) : response :=
  try_except
    (_ <- import_dispersion_utils env ;;
     let year := year_arg r in
     let results := dispersion_utils.get_capture_results year f in
     Returns {| body := CaptureResultsPayload scenario_name year results
                          (List.length results);
                status := 200 |})
    (fun e => {| body := ErrorPayload (str_exn e); status := 500 |}).

End app.

(** ** Vocabulary of the statements *)

Module Spec.

(** The value stored for [district] under [year] in the state file. *)
Definition stored_entry (f : filesystem) (year district : string)
  : option json :=
  match state_file f with
  | Document data =>
      match getitem year data with
      | Some year_data => getitem district year_data
      | None => None
      end
  | Unavailable _ => None
  end.

(** The [total_emission] field of that record, if any. *)
Definition stored_total (f : filesystem) (year district : string)
  : option json :=
  match stored_entry f year district with
  | Some (JObj record) => getitem "total_emission" record
  | _ => None
  end.

(** What one visit of [add_emission_data_to_json] writes into a record
    that lacks [total_emission], drawing from generator state [g]. *)
Definition populated (district : string) (record : dict json) (g : rng_state)
  : dict json :=
  let emissions := fst (get_random_emission (classify district) g) in
  setitem "total_emission" (float_json (round2 (sum (values emissions))))
    (update record (map (fun kv => (fst kv, float_json (snd kv))) emissions)).

(** ['total_emission' in v] evaluates to [True]. *)
Definition has_total (v : json) : bool :=
  match py_in "total_emission" v with
  | Returns true => true
  | _ => false
  end.

(** The loop body of [add_emission_data_to_json] leaves the entry alone. *)
Definition settled (district : string) (v : json) : bool :=
  String.eqb district "timestamp" || has_total v.

(** How an entry [v] of a year relates to the entry [v'] found after
    the loop; [visited] tells whether the loop went over it, [seq] is the
    sequence the generator draws from. *)
Definition entry_rel (seq : nat -> Q) (visited : Prop) (district : string)
  (v v' : json) : Prop :=
  (settled district v = true \/ ~ visited -> v' = v)
  /\ (settled district v = false -> visited ->
      exists record g0, random_seq g0 = seq
                        /\ v = JObj record
                        /\ v' = JObj (populated district record g0)).

Definition year_rel (seq : nat -> Q) (visited : Prop) (yd yd' : dict json)
  : Prop :=
  keys yd' = keys yd
  /\ forall d v, getitem d yd = Some v ->
       exists v', getitem d yd' = Some v' /\ entry_rel seq visited d v v'.

Definition is_returns {A} (r : result A) : bool :=
  match r with Returns _ => true | Raises _ => false end.

Definition is_record (v : json) : bool :=
  match v with JObj _ => true | _ => false end.

(** The loop body goes over [district] without raising. *)
Definition entry_clean (yd : dict json) (district : string) : bool :=
  String.eqb district "timestamp"
  || match getitem district yd with
     | Some v =>
         match py_in "total_emission" v with
         | Returns true => true
         | Returns false => is_record v
         | Raises _ => false
         end
     | None => false
     end.

Definition year_clean (data : store) (year : string) : bool :=
  match getitem year data with
  | Some yd => forallb (entry_clean yd) (keys yd)
  | None => false
  end.

(** Every district entry other than [timestamp] is a record. *)
Definition records_only (data : store) : bool :=
  forallb
    (fun y => forallb
                (fun e => String.eqb (fst e) "timestamp" || is_record (snd e))
                (snd y))
    data.

(** The [n]-th figure [get_random_emission] draws from range [r] when
    started in generator state [g]. *)
Definition draw (r : range) (g : rng_state) (n : nat) : Q :=
  round2 (inject_Z (min r)
          + (inject_Z (max r) - inject_Z (min r))
            * random_seq g (n + position g))%Q.

Definition in_range (r : range) (x : Q) : Prop :=
  (inject_Z (min r) <= x <= inject_Z (max r))%Q.

Definition emission_field (k : string) : bool :=
  String.eqb k "transport_emission" || String.eqb k "industrial_emission"
  || String.eqb k "residential_emission" || String.eqb k "total_emission".

(** [record.get(field, 0)] read as a number. *)
Definition field_number (record : dict json) (field : string) : option Q :=
  as_number (match getitem field record with
             | Some x => x
             | None => int_json 0
             end).

Definition breakdown_sum (b : breakdown) : Q :=
  (transport_percentage b + industrial_percentage b
   + residential_percentage b)%Q.

End Spec.
Export Spec.

(** ** Vocabulary of the further statements *)

Module Spec2.

(** The entries of a year that the result loops turn into results. *)
Definition districts_of (year_data : dict json) : dict json :=
  filter (fun kv => negb (String.eqb (fst kv) "timestamp")) year_data.

(** Every entry of the year other than [timestamp] is a record. *)
Definition all_records (year_data : dict json) : bool :=
  forallb (fun kv => String.eqb (fst kv) "timestamp" || is_record (snd kv))
          year_data.

(** [e] is the dispersion result built from the stored pair [kv]. *)
Definition dispersion_entry_for (year : string) (kv : string * json)
  (e : dispersion_entry) : Prop :=
  de_district e = fst kv
  /\ de_year e = year
  /\ py_get (snd kv) "co2_concentration" (int_json 0)
     = Returns (initial_concentration e)
  /\ py_get (snd kv) "co2_concentration_after_dispersion" (int_json 0)
     = Returns (final_concentration e)
  /\ py_get (snd kv) "total_emission" (int_json 0)
     = Returns (de_total_emission e)
  /\ neighbors e = [].

(** [e] is the capture result built from the stored pair [kv]. *)
Definition capture_view_for (year : string) (kv : string * json)
  (e : capture_view) : Prop :=
  cv_district e = fst kv
  /\ cv_year e = year
  /\ py_get (snd kv) "co2_before_capture" (int_json 0)
     = Returns (co2_before_capture e)
  /\ py_get (snd kv) "co2_after_capture" (int_json 0)
     = Returns (co2_after_capture e)
  /\ py_get (snd kv) "total_capture" (int_json 0)
     = Returns (total_capture e)
  /\ py_get (snd kv) "percent_reduction" (int_json 0)
     = Returns (percent_reduction e)
  /\ py_get (snd kv) "interventions" (JObj [])
     = Returns (interventions e)
  /\ py_get (snd kv) "total_emission" (int_json 0)
     = Returns (cv_total_emission e).

(** The view [get_emission_by_district] builds from a record whose
    fields read as the numbers [t], [i], [r] and [T]. *)
Definition view_of (district year : string) (record : dict json)
  (total : json) (t i r T : Q) : emission_view :=
  let stored k := match getitem k record with
                  | Some x => x
                  | None => int_json 0
                  end in
  {| ev_district := district;
     ev_year := year;
     ev_transport_emission := stored "transport_emission";
     ev_industrial_emission := stored "industrial_emission";
     ev_residential_emission := stored "residential_emission";
     ev_total_emission := total;
     ev_breakdown :=
       {| transport_percentage := round2 (t / T * 100);
          industrial_percentage := round2 (i / T * 100);
          residential_percentage := round2 (r / T * 100) |} |}.

Definition stage_succeeded (o : stage_outcome) : bool :=
  match o with StageSucceeded _ _ => true | StageFailed _ => false end.

Definition comparison_succeeded (o : comparison_outcome) : bool :=
  match o with ComparisonSucceeded _ _ => true | ComparisonFailed _ => false end.

End Spec2.
Export Spec2.

(** ** Sample inputs *)

Definition quiet_kernel (code : Z) (err : string) : kernel :=
  fun _ f => (Returns {| returncode := code; stdout := ""; stderr := err |}, f).

Definition sample_store : store :=
  [ ("2025",
     [ ("timestamp", JStr "2025-01-01T00:00:00");
       ("Kolar", JObj [ ("co2_concentration", int_json 410);
                        ("co2_concentration_after_dispersion", int_json 405);
                        ("transport_emission", float_json 1300);
                        ("industrial_emission", float_json 1250);
                        ("residential_emission", float_json 1350);
                        ("total_emission", float_json 3900) ]);
       ("Anekal", JObj [ ("co2_concentration", int_json 420) ]) ]) ].

Definition sample_fs : filesystem :=
  {| state_file := Document sample_store; writable := true |}.

Definition half_rng : rng_state :=
  {| random_seq := fun _ => (1 # 2)%Q; position := 0 |}.

Definition sample_world : world :=
  {| fs := sample_fs; rng := half_rng |}.

Definition missing_fs : filesystem :=
  {| state_file := Unavailable (Exn OSError "[Errno 2] No such file or directory");
     writable := true |}.

Definition empty_fs : filesystem :=
  {| state_file := Document []; writable := true |}.

Definition zero_total_fs : filesystem :=
  {| state_file :=
       Document [ ("2025",
                   [ ("Kolar", JObj [ ("transport_emission", int_json 0);
                                      ("industrial_emission", int_json 0);
                                      ("residential_emission", int_json 0);
                                      ("total_emission", int_json 0) ]) ]) ];
     writable := true |}.

(** A record whose [total_emission] was written without its components. *)
Definition bare_total_fs : filesystem :=
  {| state_file :=
       Document [ ("2025",
                   [ ("Kolar", JObj [ ("co2_concentration", int_json 410);
                                      ("total_emission", int_json 100) ]) ]) ];
     writable := true |}.

Definition two_year_world : world :=
  {| fs := {| state_file :=
                Document [ ("2024", [ ("Hosakote", JObj []) ]);
                           ("2025", [ ("Kolar", JObj []) ]) ];
              writable := true |};
     rng := half_rng |}.

(** A year in which one district's value is [null]. *)
Definition blocked_world : world :=
  {| fs := {| state_file :=
                Document [ ("2025", [ ("Kolar", JObj []);
                                      ("Anekal", JNull) ]) ];
              writable := true |};
     rng := half_rng |}.

(** Both utility modules can be imported. *)
Definition importing : app.environment :=
  {| app.import_emission_utils := Returns tt;
     app.import_dispersion_utils := Returns tt |}.

(** A record whose stored total differs slightly from the sum of its
    stored components, as happens when the total is computed in binary
    floating point. *)
Definition drifted_fs : filesystem :=
  {| state_file :=
       Document [ ("2025",
                   [ ("Kolar", JObj [ ("transport_emission", float_json (130001 # 100));
                                      ("industrial_emission", float_json (125002 # 100));
                                      ("residential_emission", float_json (135003 # 100));
                                      ("total_emission",
                                       float_json (39000600000000001 # 10000000000000)) ]) ]) ];
     writable := true |}.

(** * Properties *)

(** ** Dictionaries *)

Lemma getitem_setitem_same {A} (k : string) (v : A) (d : dict A) :
  getitem k (setitem k v d) = Some v.
Proof.
  induction d as [|[k' v'] d IH]; simpl.
  - now rewrite String.eqb_refl.
  - destruct (String.eqb k k') eqn:E; simpl.
    + now rewrite String.eqb_refl.
    + now rewrite E.
Qed.

Lemma getitem_setitem_other {A} (k k0 : string) (v : A) (d : dict A) :
  k0 <> k -> getitem k0 (setitem k v d) = getitem k0 d.
Proof.
  intros Hne. induction d as [|[k' v'] d IH]; simpl.
  - destruct (String.eqb k0 k) eqn:E; [apply String.eqb_eq in E; contradiction | reflexivity].
  - destruct (String.eqb k k') eqn:E; simpl.
    + apply String.eqb_eq in E. subst k'.
      destruct (String.eqb k0 k) eqn:E0; [apply String.eqb_eq in E0; contradiction | reflexivity].
    + now rewrite IH.
Qed.

Lemma keys_setitem_present {A} (k : string) (v : A) (d : dict A) :
  getitem k d <> None -> keys (setitem k v d) = keys d.
Proof.
  unfold keys. induction d as [|[k' v'] d IH]; simpl; intros H.
  - congruence.
  - destruct (String.eqb k k') eqn:E; simpl.
    + apply String.eqb_eq in E. now subst.
    + now rewrite IH.
Qed.

Lemma getitem_In_keys {A} (k : string) (d : dict A) :
  getitem k d <> None <-> In k (keys d).
Proof.
  unfold keys. induction d as [|[k' v'] d IH]; simpl.
  - split; [congruence | tauto].
  - destruct (String.eqb k k') eqn:E.
    + apply String.eqb_eq in E. subst. split; [auto | congruence].
    + apply String.eqb_neq in E. rewrite IH. split; [auto | intros [H|H]; congruence].
Qed.

(** ** Stepping through a body in the [result] monad *)

(** Case on the first call of a chain of binds; a raising call ends a
    body whose value is being matched against a returned one. *)
Ltac run_binds :=
  repeat match goal with
         | |- context [bind ?c _] => destruct c; simpl; try discriminate
         end.

Ltac run_binds_in H :=
  repeat match type of H with
         | context [bind ?c _] => destruct c; simpl in H; try discriminate
         end.

(** ** Result views never name the reserved key *)

Lemma get_emission_by_district_name district year fs e :
  get_emission_by_district district year fs = Some e -> ev_district e = district.
Proof.
  unfold get_emission_by_district, get_emission_by_district_body, try_except.
  destruct (getitem year (load_emission_data fs)) as [yd|]; [|discriminate].
  destruct (getitem district yd) as [dd|]; [|discriminate].
  destruct (py_in "total_emission" dd) as [[|]|]; simpl; try discriminate.
  run_binds.
  intros H. injection H as <-. reflexivity.
Qed.

Lemma collect_emissions_names (P : string -> Prop) names year fs acc :
  Forall (fun e => P (ev_district e)) acc ->
  Forall P (filter (fun n => negb (String.eqb n "timestamp")) names) ->
  Forall (fun e => P (ev_district e)) (collect_emissions names year fs acc).
Proof.
  revert acc. induction names as [|n names IH]; simpl; intros acc Hacc Hn.
  - exact Hacc.
  - destruct (String.eqb n "timestamp") eqn:E; simpl in Hn.
    + now apply IH.
    + inversion Hn; subst.
      destruct (get_emission_by_district n year fs) as [e|] eqn:Ge.
      * apply IH; [|assumption]. apply Forall_app. split; [assumption|].
        constructor; [|constructor].
        now rewrite (get_emission_by_district_name _ _ _ _ Ge).
      * now apply IH.
Qed.

Lemma not_timestamp_filter names :
  Forall (fun n => n <> "timestamp")
         (filter (fun n => negb (String.eqb n "timestamp")) names).
Proof.
  apply Forall_forall. intros n Hin. apply filter_In in Hin as [_ Hn].
  apply negb_true_iff, String.eqb_neq in Hn. exact Hn.
Qed.

Lemma stored_entries_names (P : string -> Prop) items year acc r :
  Forall (fun e => P (de_district e)) acc ->
  Forall P (filter (fun n => negb (String.eqb n "timestamp")) (keys items)) ->
  stored_entries items year acc = Returns r ->
  Forall (fun e => P (de_district e)) r.
Proof.
  revert acc. induction items as [|[n v] items IH]; simpl; intros acc Hacc Hn H.
  - now injection H as <-.
  - destruct (String.eqb n "timestamp") eqn:E; simpl in Hn.
    + eapply IH; eauto.
    + inversion Hn; subst.
      run_binds_in H.
      eapply IH; [| eassumption | exact H].
      apply Forall_app. split; [assumption|]. now repeat constructor.
Qed.

Lemma capture_entries_names (P : string -> Prop) items year acc r :
  Forall (fun e => P (cv_district e)) acc ->
  Forall P (filter (fun n => negb (String.eqb n "timestamp")) (keys items)) ->
  capture_entries items year acc = Returns r ->
  Forall (fun e => P (cv_district e)) r.
Proof.
  revert acc. induction items as [|[n v] items IH]; simpl; intros acc Hacc Hn H.
  - now injection H as <-.
  - destruct (String.eqb n "timestamp") eqn:E; simpl in Hn.
    + eapply IH; eauto.
    + inversion Hn; subst.
      run_binds_in H.
      eapply IH; [| eassumption | exact H].
      apply Forall_app. split; [assumption|]. now repeat constructor.
Qed.

(** C7: whatever the state file holds and whatever the year, no entry of
    the sequences returned by [get_all_districts_emission_data],
    [get_dispersion_results] and [get_capture_results] is named
    [timestamp]. *)
Theorem C7_no_result_named_timestamp (year : string) (fs : filesystem) :
  Forall (fun e => ev_district e <> "timestamp")
         (get_all_districts_emission_data year fs)
  /\ Forall (fun e => de_district e <> "timestamp")
            (get_dispersion_results year fs)
  /\ Forall (fun e => cv_district e <> "timestamp")
            (get_capture_results year fs).
Proof.
  split; [|split].
  - unfold get_all_districts_emission_data, try_except.
    destruct (getitem year (load_emission_data fs)) as [yd|]; [|constructor].
    apply (collect_emissions_names (fun n => n <> "timestamp"));
      [constructor | apply not_timestamp_filter].
  - unfold get_dispersion_results, try_except.
    destruct (read_json fs) as [data|]; simpl; [|constructor].
    destruct (getitem year data) as [yd|]; [|constructor].
    destruct (stored_entries yd year []) as [r|] eqn:E; [|constructor].
    eapply (stored_entries_names (fun n => n <> "timestamp"));
      [| apply not_timestamp_filter | exact E].
    constructor.
  - unfold get_capture_results, try_except.
    destruct (read_json fs) as [data|]; simpl; [|constructor].
    destruct (getitem year data) as [yd|]; [|constructor].
    destruct (capture_entries yd year []) as [r|] eqn:E; [|constructor].
    eapply (capture_entries_names (fun n => n <> "timestamp"));
      [| apply not_timestamp_filter | exact E].
    constructor.
Qed.

(** ** A year the store does not hold *)

(** C8: when the state file holds a store with no entry for [year], each
    of the three result queries returns the empty sequence. *)
Theorem C8_absent_year_gives_empty (year : string) (fs : filesystem) (data : store) :
  state_file fs = Document data ->
  getitem year data = None ->
  get_all_districts_emission_data year fs = []
  /\ get_dispersion_results year fs = []
  /\ get_capture_results year fs = [].
Proof.
  intros Hfile Habsent.
  unfold get_all_districts_emission_data, get_dispersion_results,
    get_capture_results, load_emission_data, read_json, try_except.
  rewrite Hfile. simpl. rewrite Habsent. auto.
Qed.

Lemma C8_absent_year_gives_empty_witness :
  let fs := {| state_file :=
                 Document [("2024", [("Kolar", JObj [("total_emission", int_json 7)])])];
               writable := true |} in
  get_all_districts_emission_data "2025" fs = []
  /\ get_dispersion_results "2025" fs = []
  /\ get_capture_results "2025" fs = [].
Proof.
  intros fs.
  apply (C8_absent_year_gives_empty "2025" fs
           [("2024", [("Kolar", JObj [("total_emission", int_json 7)])])]);
    reflexivity.
Defined.

(** ** The dispersion runner *)

Lemma simulation_entries_stored_entries items year acc :
  simulation_entries items year acc = stored_entries items year acc.
Proof.
  revert acc. induction items as [|[n v] items IH]; simpl; intros acc.
  - reflexivity.
  - destruct (String.eqb n "timestamp"); [apply IH|].
    repeat match goal with
           | |- bind ?c _ = bind ?c _ => destruct c; simpl; [|reflexivity]
           end.
    apply IH.
Qed.

(** C10: when [run_dispersion_simulation] succeeds, the result sequence
    it returns is the one [get_dispersion_results] returns for the same
    year on the state file as the kernel left it; [total_districts] is
    its length. *)
Theorem C10_run_results_are_stored_results
  (node : kernel) (steps : Z) (wind_speed : number)
  (wind_direction year : string) (fs0 fs1 : filesystem)
  (params : simulation_params) (results : list dispersion_entry) (n : nat) :
  run_dispersion_simulation node steps wind_speed wind_direction year fs0
    = (Succeeded params results n, fs1) ->
  get_dispersion_results year fs1 = results /\ n = List.length results.
Proof.
  unfold run_dispersion_simulation, get_dispersion_results, try_except.
  destruct (node _ fs0) as [ran fs']. intros H.
  injection H as Hres ->.
  destruct ran as [p|e]; simpl in Hres; [|discriminate].
  destruct (negb (returncode p =? 0)%Z); [discriminate|].
  destruct (read_json fs1) as [data|e]; simpl in *; [|discriminate].
  destruct (getitem year data) as [yd|]; simpl in *.
  - rewrite <- simulation_entries_stored_entries.
    destruct (simulation_entries yd year []) as [r|e]; simpl in *; [|discriminate].
    injection Hres as _ <- <-. auto.
  - injection Hres as _ <- <-. auto.
Qed.

Lemma C10_run_results_are_stored_results_witness :
  get_dispersion_results "2025" sample_fs =
    [ {| de_district := "Kolar"; de_year := "2025";
         initial_concentration := int_json 410;
         final_concentration := int_json 405;
         de_total_emission := float_json 3900;
         neighbors := [] |};
      {| de_district := "Anekal"; de_year := "2025";
         initial_concentration := int_json 420;
         final_concentration := int_json 0;
         de_total_emission := int_json 0;
         neighbors := [] |} ]
  /\ 2%nat = 2%nat.
Proof.
  apply (C10_run_results_are_stored_results
           (quiet_kernel 0 "") 20 (PyInt 5) "NE" "2025" sample_fs sample_fs
           {| sp_steps := 20;
              sp_wind := {| speed := PyInt 5; direction := "NE" |};
              sp_year := "2025" |}).
  reflexivity.
Defined.

(** C5 (as the code has it): when the diffusion kernel exits with a
    non-zero status, [run_dispersion_simulation] returns only an error,
    whose text is "Dispersion simulation failed: " followed by the
    kernel's stderr, and the state file is as the kernel left it. *)
Theorem C5_kernel_failure_is_reported
  (node : kernel) (steps : Z) (wind_speed : number)
  (wind_direction year : string) (fs0 fs1 : filesystem)
  (p : completed_process) :
  node {| arg_steps := steps; arg_wind_speed := wind_speed;
          arg_wind_direction := wind_direction |} fs0 = (Returns p, fs1) ->
  returncode p <> 0%Z ->
  run_dispersion_simulation node steps wind_speed wind_direction year fs0
    = (Failed ("Dispersion simulation failed: " ++ stderr p), fs1).
Proof.
  intros Hrun Hcode. unfold run_dispersion_simulation. rewrite Hrun.
  simpl. apply Z.eqb_neq in Hcode. now rewrite Hcode.
Qed.

Lemma C5_kernel_failure_is_reported_witness :
  run_dispersion_simulation (quiet_kernel 1 "bad wind value")
    20 (PyInt 5) "NE" "2025" sample_fs
  = (Failed "Dispersion simulation failed: bad wind value", sample_fs).
Proof.
  apply (C5_kernel_failure_is_reported (quiet_kernel 1 "bad wind value")
           20 (PyInt 5) "NE" "2025" sample_fs sample_fs
           {| returncode := 1; stdout := ""; stderr := "bad wind value" |}).
  - reflexivity.
  - discriminate.
Defined.

(** C5 as stated fails: with exit status 1 and stderr "bad wind value"
    the error text is not exactly "bad wind value". *)
Lemma C5_message_is_not_bare_stderr :
  fst (run_dispersion_simulation (quiet_kernel 1 "bad wind value")
         20 (PyInt 5) "NE" "2025" sample_fs)
  <> Failed "bad wind value".
Proof.
  vm_compute. discriminate.
Qed.

(** ** Emission queries *)

(** C2 (the code at the failing input): for a stored record whose
    [total_emission] is zero, [get_emission_by_district] returns [None]:
    the division raises and the handler swallows it. *)
Theorem C2_zero_total_gives_none
  (district year : string) (fs : filesystem) (data : store)
  (year_data : dict json) (record : dict json) (v : json) (q : Q) :
  state_file fs = Document data ->
  getitem year data = Some year_data ->
  getitem district year_data = Some (JObj record) ->
  getitem "total_emission" record = Some v ->
  as_number v = Some q ->
  (q == 0)%Q ->
  get_emission_by_district district year fs = None.
Proof.
  intros Hfile Hy Hd Ht Hv Hq.
  unfold get_emission_by_district, get_emission_by_district_body,
    load_emission_data, read_json, try_except.
  rewrite Hfile. simpl. rewrite Hy, Hd. simpl.
  unfold contains. rewrite Ht. simpl.
  unfold percentage. simpl. rewrite Ht.
  unfold truediv. rewrite Hv.
  apply Qeq_bool_iff in Hq. rewrite Hq.
  match goal with
  | |- context [as_number ?x] => destruct (as_number x); reflexivity
  end.
Qed.

Lemma C2_zero_total_gives_none_witness :
  get_emission_by_district "Kolar" "2025" zero_total_fs = None.
Proof.
  eapply (C2_zero_total_gives_none "Kolar" "2025" zero_total_fs);
    reflexivity.
Defined.

(** ** An unavailable state file *)

(** C3 as stated fails: with the state file missing,
    [load_emission_data] returns what it returns for an empty document,
    and [add_emission_data_to_json] reports success after writing an
    empty store. *)
Lemma C3_missing_file_read_as_empty_store :
  load_emission_data missing_fs = load_emission_data empty_fs
  /\ add_emission_data_to_json {| fs := missing_fs; rng := half_rng |}
     = (true, {| fs := empty_fs; rng := half_rng |}).
Proof.
  split; reflexivity.
Qed.

(** C3 (as the code has it): when opening or decoding the state file
    raises, [load_emission_data] returns the empty store, the emission
    and result queries return none or the empty sequence, and
    [add_emission_data_to_json] returns what saving an empty store
    returns; only [run_dispersion_simulation] reports the failure, as an
    error carrying the exception's text. *)
Theorem C3_unavailable_file_is_defaulted (f : filesystem) (e : exn) :
  state_file f = Unavailable e ->
  load_emission_data f = []
  /\ (forall district year, get_emission_by_district district year f = None)
  /\ (forall year, get_all_districts_emission_data year f = [])
  /\ (forall year, get_dispersion_results year f = [])
  /\ (forall year, get_capture_results year f = [])
  /\ (forall g,
        add_emission_data_to_json {| fs := f; rng := g |}
        = (writable f,
           {| fs := if writable f then empty_fs else f; rng := g |}))
  /\ (forall (node : kernel) steps wind_speed wind_direction year f0 p,
        node {| arg_steps := steps; arg_wind_speed := wind_speed;
                arg_wind_direction := wind_direction |} f0 = (Returns p, f) ->
        returncode p = 0%Z ->
        run_dispersion_simulation node steps wind_speed wind_direction year f0
        = (Failed ("Error running dispersion simulation: " ++ str_exn e), f)).
Proof.
  intros Hfile.
  assert (Hload : load_emission_data f = []).
  { unfold load_emission_data, read_json. now rewrite Hfile. }
  repeat split.
  - exact Hload.
  - intros. unfold get_emission_by_district, get_emission_by_district_body.
    now rewrite Hload.
  - intros. unfold get_all_districts_emission_data. now rewrite Hload.
  - intros. unfold get_dispersion_results, read_json. now rewrite Hfile.
  - intros. unfold get_capture_results, read_json. now rewrite Hfile.
  - intros. unfold add_emission_data_to_json. simpl. rewrite Hload. simpl.
    unfold save_emission_data, write_json.
    destruct (writable f); reflexivity.
  - intros node steps ws wd year f0 p Hrun Hcode.
    unfold run_dispersion_simulation. rewrite Hrun. simpl.
    rewrite Hcode. simpl. unfold read_json. now rewrite Hfile.
Qed.

Lemma C3_unavailable_file_is_defaulted_witness :
  load_emission_data missing_fs = []
  /\ (forall district year, get_emission_by_district district year missing_fs = None)
  /\ (forall year, get_all_districts_emission_data year missing_fs = [])
  /\ (forall year, get_dispersion_results year missing_fs = [])
  /\ (forall year, get_capture_results year missing_fs = [])
  /\ (forall g,
        add_emission_data_to_json {| fs := missing_fs; rng := g |}
        = (true, {| fs := empty_fs; rng := g |}))
  /\ (forall (node : kernel) steps wind_speed wind_direction year f0 p,
        node {| arg_steps := steps; arg_wind_speed := wind_speed;
                arg_wind_direction := wind_direction |} f0
          = (Returns p, missing_fs) ->
        returncode p = 0%Z ->
        run_dispersion_simulation node steps wind_speed wind_direction year f0
        = (Failed "Error running dispersion simulation: [Errno 2] No such file or directory",
           missing_fs)).
Proof.
  apply (C3_unavailable_file_is_defaulted missing_fs
           (Exn OSError "[Errno 2] No such file or directory")).
  reflexivity.
Defined.

(** ** Rounding *)

Section Rounding.
Local Open Scope Q_scope.

Lemma round_half_even_close (q : Q) :
  - (1 # 2) <= inject_Z (round_half_even q) - q <= 1 # 2.
Proof.
  unfold round_half_even.
  pose proof (Qfloor_le q) as Hlo.
  pose proof (Qlt_floor q) as Hhi.
  rewrite inject_Z_plus in Hhi. change (inject_Z 1) with 1 in Hhi.
  destruct (Qcompare (q - inject_Z (Qfloor q)) (1 # 2)) eqn:C.
  - apply Qeq_alt in C.
    destruct (Z.even (Qfloor q)).
    + lra.
    + rewrite inject_Z_plus. change (inject_Z 1) with 1. lra.
  - apply Qlt_alt in C. lra.
  - apply Qgt_alt in C. rewrite inject_Z_plus. change (inject_Z 1) with 1. lra.
Qed.

Lemma round_half_even_ge (q : Q) (a : Z) :
  inject_Z a <= q -> (a <= round_half_even q)%Z.
Proof.
  intros H. apply Qfloor_resp_le in H. rewrite Qfloor_Z in H.
  unfold round_half_even.
  destruct (Qcompare _ _); [destruct (Z.even _)| |]; lia.
Qed.

Lemma round_half_even_le (q : Q) (b : Z) :
  q <= inject_Z b -> (round_half_even q <= b)%Z.
Proof.
  intros H. pose proof (Qfloor_resp_le _ _ H) as Hf. rewrite Qfloor_Z in Hf.
  pose proof (Qfloor_le q) as Hlo.
  unfold round_half_even.
  destruct (Z.eq_dec (Qfloor q) b) as [E|E].
  - assert (C : Qcompare (q - inject_Z (Qfloor q)) (1 # 2) = Lt).
    { apply (proj1 (Qlt_alt _ _)). rewrite E in *. lra. }
    rewrite C. lia.
  - destruct (Qcompare _ _); [destruct (Z.even _)| |]; lia.
Qed.

Lemma round_half_even_comp (q q' : Q) :
  q == q' -> round_half_even q = round_half_even q'.
Proof.
  intros E. unfold round_half_even.
  rewrite (Qfloor_comp _ _ E).
  assert (E' : q - inject_Z (Qfloor q') == q' - inject_Z (Qfloor q'))
    by (rewrite E; reflexivity).
  now rewrite (Qcompare_comp _ _ E' (1 # 2) (1 # 2) (Qeq_refl _)).
Qed.

Lemma round2_as_product (q : Q) :
  round2 q == inject_Z (round_half_even (q * 100)) * (1 # 100).
Proof.
  unfold round2, Qeq. simpl. lia.
Qed.

Lemma round2_close (q : Q) : - (1 # 200) <= round2 q - q <= 1 # 200.
Proof.
  rewrite round2_as_product.
  pose proof (round_half_even_close (q * 100)). lra.
Qed.

Lemma round2_bounds (q : Q) (lo hi : Z) :
  inject_Z lo <= q <= inject_Z hi ->
  inject_Z lo <= round2 q <= inject_Z hi.
Proof.
  intros [Hlo Hhi].
  assert (H1 : (lo * 100 <= round_half_even (q * 100))%Z).
  { apply round_half_even_ge. rewrite inject_Z_mult.
    change (inject_Z 100) with 100. lra. }
  assert (H2 : (round_half_even (q * 100) <= hi * 100)%Z).
  { apply round_half_even_le. rewrite inject_Z_mult.
    change (inject_Z 100) with 100. lra. }
  rewrite round2_as_product.
  rewrite Zle_Qle in H1, H2. rewrite inject_Z_mult in H1, H2.
  change (inject_Z 100) with 100 in *. lra.
Qed.

Lemma round2_hundredths (z : Z) : round2 (z # 100) == z # 100.
Proof.
  assert (H : round_half_even ((z # 100) * 100) = z).
  { apply Z.le_antisymm.
    - apply round_half_even_le. unfold Qle. simpl. lia.
    - apply round_half_even_ge. unfold Qle. simpl. lia. }
  unfold round2. now rewrite H.
Qed.

(** Rounding the sum of three rounded figures changes nothing. *)
Lemma round2_sum_of_rounded (a b c : Q) :
  round2 (sum [round2 a; round2 b; round2 c])
  == round2 a + round2 b + round2 c.
Proof.
  set (x := round_half_even (a * 100)).
  set (y := round_half_even (b * 100)).
  set (z := round_half_even (c * 100)).
  assert (E : sum [round2 a; round2 b; round2 c] == (x + y + z) # 100).
  { unfold sum, round2. fold x y z. simpl. unfold Qeq, Qplus. simpl. lia. }
  assert (E2 : round2 (sum [round2 a; round2 b; round2 c])
               = round2 ((x + y + z) # 100)).
  { unfold round2 at 1 5. f_equal. apply round_half_even_comp. now rewrite E. }
  rewrite E2, round2_hundredths.
  unfold round2. fold x y z. unfold Qeq, Qplus. simpl. lia.
Qed.

Lemma uniform_in_range (a b u : Q) :
  a <= b -> 0 <= u < 1 -> a <= a + (b - a) * u <= b.
Proof.
  intros Hab [H0 H1]. nra.
Qed.

End Rounding.

(** ** The generator loop *)

Lemma has_total_populated d record g :
  has_total (JObj (populated d record g)) = true.
Proof.
  unfold has_total, populated, py_in, contains.
  now rewrite getitem_setitem_same.
Qed.

Lemma get_random_emission_seq t g :
  random_seq (snd (get_random_emission t g)) = random_seq g.
Proof. reflexivity. Qed.

Lemma visit_district_cases district yd g r g' :
  visit_district district yd g = (Returns r, g') ->
  random_seq g' = random_seq g
  /\ ((r = yd /\
       (district = "timestamp"
        \/ exists v, getitem district yd = Some v /\ has_total v = true))
      \/ (district <> "timestamp" /\
          exists record, getitem district yd = Some (JObj record)
            /\ has_total (JObj record) = false
            /\ r = setitem district (JObj (populated district record g)) yd)).
Proof.
  unfold visit_district.
  destruct (String.eqb district "timestamp") eqn:Ets.
  - intros H. injection H as <- <-. split; [reflexivity|].
    left. apply String.eqb_eq in Ets. auto.
  - apply String.eqb_neq in Ets.
    destruct (getitem district yd) as [v|] eqn:Gv; [|discriminate].
    destruct (py_in "total_emission" v) as [[|]|] eqn:Pin; [| |discriminate].
    + intros H. injection H as <- <-. split; [reflexivity|].
      left. split; [reflexivity|]. right.
      exists v. split; [reflexivity|]. unfold has_total. now rewrite Pin.
    + pose proof (get_random_emission_seq (classify district) g) as Hseq.
      destruct (get_random_emission (classify district) g) as [em g1] eqn:Gr.
      destruct v; simpl; try discriminate.
      intros H. injection H as <- <-. split; [exact Hseq|].
      right. split; [assumption|].
      exists l. split; [reflexivity|]. split.
      * unfold has_total. now rewrite Pin.
      * unfold populated. now rewrite Gr.
Qed.

Lemma visit_districts_spec ks : forall yd g yd' g',
  visit_districts ks yd g = (Returns yd', g') ->
  random_seq g' = random_seq g
  /\ keys yd' = keys yd
  /\ forall d v, getitem d yd = Some v ->
       exists v', getitem d yd' = Some v'
                  /\ entry_rel (random_seq g) (In d ks) d v v'.
Proof.
  induction ks as [|k ks IH]; simpl; intros yd g yd' g' H.
  - injection H as <- <-. repeat split.
    intros d v Hv. exists v. split; [assumption|].
    split; [reflexivity | contradiction].
  - destruct (visit_district k yd g) as [[yd1|e] g1] eqn:V; [|discriminate].
    apply visit_district_cases in V. destruct V as [Hseq1 V].
    destruct (IH _ _ _ _ H) as (Hseq & Hk & Hent).
    rewrite Hseq1 in Hseq, Hent.
    split; [assumption|].
    destruct V as [(-> & Hskip) | (Hts & record & Gk & Hnt & ->)].
    + split; [assumption|].
      intros d v Hv. destruct (Hent d v Hv) as (v' & Gv' & Hsame & Hpop).
      exists v'. split; [assumption|]. split.
      * intros [Hs | Hn]; apply Hsame; [left; assumption | right; tauto].
      * intros Hs [-> | Hin]; [|now apply Hpop].
        exfalso. unfold settled in Hs. apply orb_false_iff in Hs as [Hs1 Hs2].
        destruct Hskip as [-> | (v0 & Gv0 & Ht)].
        -- discriminate.
        -- congruence.
    + assert (Hpres : getitem k yd <> None) by congruence.
      split; [rewrite Hk; now apply keys_setitem_present|].
      intros d v Hv.
      destruct (string_dec d k) as [-> | Hne].
      * assert (v = JObj record) by congruence. subst v.
        destruct (Hent k _ (getitem_setitem_same k _ yd))
          as (v' & Gv' & Hsame & _).
        exists v'. split; [assumption|].
        assert (v' = JObj (populated k record g)) as ->.
        { apply Hsame. left. unfold settled.
          rewrite has_total_populated. apply orb_true_r. }
        split.
        -- intros [Hs | Hn]; [|exfalso; apply Hn; now left].
           unfold settled in Hs. rewrite Hnt in Hs.
           apply String.eqb_neq in Hts. rewrite Hts in Hs. discriminate.
        -- intros _ _. exists record, g. auto.
      * rewrite <- (getitem_setitem_other k d (JObj (populated k record g)) yd Hne) in Hv.
        destruct (Hent d v Hv) as (v' & Gv' & Hsame & Hpop).
        exists v'. split; [assumption|]. split.
        -- intros [Hs | Hn]; apply Hsame; [left; assumption | right; tauto].
        -- intros Hs [E | Hin]; [congruence | now apply Hpop].
Qed.

Lemma settled_after seq (visited : Prop) d v v' :
  visited -> entry_rel seq visited d v v' -> settled d v' = true.
Proof.
  intros Hv [Hsame Hpop].
  destruct (settled d v) eqn:S.
  - rewrite (Hsame (or_introl eq_refl)). exact S.
  - destruct (Hpop eq_refl Hv) as (record & g0 & _ & _ & ->).
    unfold settled. rewrite has_total_populated. apply orb_true_r.
Qed.

Lemma entry_rel_trans seq seq' (P : Prop) d v v1 v' :
  entry_rel seq True d v v1 -> entry_rel seq' P d v1 v' ->
  entry_rel seq True d v v'.
Proof.
  intros H1 H2.
  assert (S1 : settled d v1 = true) by exact (settled_after seq True d v v1 I H1).
  assert (E : v' = v1) by (apply H2; now left).
  subst v'. exact H1.
Qed.

Lemma visit_years_spec ys : forall data g data' g',
  visit_years ys data g = (Returns data', g') ->
  random_seq g' = random_seq g
  /\ keys data' = keys data
  /\ forall y yd, getitem y data = Some yd ->
       exists yd', getitem y data' = Some yd'
                   /\ year_rel (random_seq g) (In y ys) yd yd'.
Proof.
  induction ys as [|k ys IH]; simpl; intros data g data' g' H.
  - injection H as <- <-. repeat split.
    intros y yd Hy. exists yd. split; [assumption|]. split; [reflexivity|].
    intros d v Hv. exists v. split; [assumption|].
    split; [reflexivity | contradiction].
  - destruct (getitem k data) as [ydk|] eqn:Gk; [|discriminate].
    destruct (visit_districts (keys ydk) ydk g) as [[yd1|e] g1] eqn:V;
      [|discriminate].
    apply visit_districts_spec in V. destruct V as (Hseq1 & Hk1 & Hent1).
    destruct (IH _ _ _ _ H) as (Hseq & Hk & Hyears).
    rewrite Hseq1 in Hseq, Hyears.
    split; [assumption|].
    assert (Hpres : getitem k data <> None) by congruence.
    split; [rewrite Hk; now apply keys_setitem_present|].
    intros y yd Hy.
    destruct (string_dec y k) as [-> | Hne].
    + assert (yd = ydk) by congruence. subst yd.
      destruct (Hyears k _ (getitem_setitem_same k yd1 data))
        as (yd' & Gy' & Hk' & Hent').
      exists yd'. split; [assumption|]. split; [congruence|].
      intros d v Hv.
      destruct (Hent1 d v Hv) as (v1 & Gv1 & Hrel1).
      destruct (Hent' d v1 Gv1) as (v' & Gv' & Hrel').
      exists v'. split; [assumption|].
      assert (Hin : In d (keys ydk)).
      { apply getitem_In_keys. congruence. }
      assert (Hrel : entry_rel (random_seq g) True d v v').
      { eapply entry_rel_trans; [|exact Hrel'].
        destruct Hrel1 as [A B]. split.
        - intros [S | N]; [apply A; now left | tauto].
        - intros S _. now apply B. }
      destruct Hrel as [A B]. split.
      * intros [S | N]; [apply A; now left | exfalso; apply N; now left].
      * intros S _. now apply B.
    + rewrite <- (getitem_setitem_other k y yd1 data Hne) in Hy.
      destruct (Hyears y yd Hy) as (yd' & Gy' & Hk' & Hent').
      exists yd'. split; [assumption|]. split; [assumption|].
      intros d v Hv. destruct (Hent' d v Hv) as (v' & Gv' & A & B).
      exists v'. split; [assumption|]. split.
      * intros [S | N]; apply A; [now left | right; tauto].
      * intros S [E | Hin]; [congruence | now apply B].
Qed.

(** *** When the loops raise *)

Lemma forallb_pointwise {A} (f g : A -> bool) (l : list A) :
  (forall x, f x = g x) -> forallb f l = forallb g l.
Proof.
  intros H. induction l as [|x l IH]; simpl; [reflexivity|].
  now rewrite H, IH.
Qed.

Lemma visit_district_clean district yd g :
  is_returns (fst (visit_district district yd g)) = entry_clean yd district.
Proof.
  unfold visit_district, entry_clean.
  destruct (String.eqb district "timestamp"); [reflexivity|]. simpl.
  destruct (getitem district yd) as [v|]; [|reflexivity].
  destruct (py_in "total_emission" v) as [[|]|]; try reflexivity.
  destruct (get_random_emission (classify district) g) as [em g1].
  destruct v; reflexivity.
Qed.

Lemma settled_clean yd d v :
  getitem d yd = Some v -> settled d v = true -> entry_clean yd d = true.
Proof.
  intros Hv Hs. unfold entry_clean, settled, has_total in *. rewrite Hv.
  destruct (String.eqb d "timestamp"); [reflexivity|]. simpl in *.
  destruct (py_in "total_emission" v) as [[|]|]; try discriminate. reflexivity.
Qed.

Lemma entry_clean_populated k record g yd d :
  entry_clean yd k = true ->
  entry_clean (setitem k (JObj (populated k record g)) yd) d = entry_clean yd d.
Proof.
  intros Hk.
  destruct (string_dec d k) as [-> | Hne].
  - rewrite Hk. apply (settled_clean _ _ (JObj (populated k record g))).
    + apply getitem_setitem_same.
    + unfold settled. rewrite has_total_populated. apply orb_true_r.
  - unfold entry_clean. now rewrite getitem_setitem_other.
Qed.

Lemma visit_districts_clean ks : forall yd g,
  is_returns (fst (visit_districts ks yd g)) = forallb (entry_clean yd) ks.
Proof.
  induction ks as [|k ks IH]; simpl; intros yd g; [reflexivity|].
  rewrite <- (visit_district_clean k yd g).
  destruct (visit_district k yd g) as [[yd1|e] g1] eqn:V; simpl; [|reflexivity].
  rewrite IH.
  pose proof (visit_district_clean k yd g) as Hc. rewrite V in Hc. simpl in Hc.
  apply visit_district_cases in V. destruct V as [_ V].
  destruct V as [(-> & _) | (_ & record & _ & _ & ->)]; [reflexivity|].
  apply forallb_pointwise. intros d. now apply entry_clean_populated.
Qed.

Lemma visit_districts_leaves_clean yd g yd' g' :
  visit_districts (keys yd) yd g = (Returns yd', g') ->
  forallb (entry_clean yd') (keys yd') = true.
Proof.
  intros V. apply visit_districts_spec in V. destruct V as (_ & Hk & Hent).
  apply forallb_forall. intros d Hin. rewrite Hk in Hin.
  destruct (getitem d yd) as [v|] eqn:Gv;
    [|apply getitem_In_keys in Hin; contradiction].
  destruct (Hent d v Gv) as (v' & Gv' & Hrel).
  apply (settled_clean _ _ v' Gv').
  exact (settled_after _ _ _ _ _ Hin Hrel).
Qed.

Lemma visit_years_clean ys : forall data g,
  is_returns (fst (visit_years ys data g)) = forallb (year_clean data) ys.
Proof.
  induction ys as [|k ys IH]; simpl; intros data g; [reflexivity|].
  unfold year_clean at 1.
  destruct (getitem k data) as [ydk|] eqn:Gk; [|reflexivity].
  rewrite <- (visit_districts_clean (keys ydk) ydk g).
  destruct (visit_districts (keys ydk) ydk g) as [[yd1|e] g1] eqn:V; simpl;
    [|reflexivity].
  rewrite IH. apply forallb_pointwise. intros y. unfold year_clean.
  destruct (string_dec y k) as [-> | Hne].
  - rewrite getitem_setitem_same, Gk.
    rewrite (visit_districts_leaves_clean _ _ _ _ V).
    rewrite <- (visit_districts_clean (keys ydk) ydk g), V. reflexivity.
  - now rewrite getitem_setitem_other.
Qed.

Lemma visit_years_raises_whatever_drawn ys data g g2 :
  is_returns (fst (visit_years ys data g))
  = is_returns (fst (visit_years ys data g2)).
Proof.
  now rewrite !visit_years_clean.
Qed.

(** *** What a call leaves in the state file *)

Lemma add_emission_data_to_json_cases (w : world) :
  let data := load_emission_data (fs w) in
  (fs (snd (add_emission_data_to_json w)) = fs w
   /\ fst (add_emission_data_to_json w) = false
   /\ (writable (fs w) = false
       \/ is_returns (fst (visit_years (keys data) data (rng w))) = false))
  \/ (exists data1 g1,
        visit_years (keys data) data (rng w) = (Returns data1, g1)
        /\ writable (fs w) = true
        /\ add_emission_data_to_json w
           = (true, {| fs := {| state_file := Document data1; writable := true |};
                       rng := g1 |})).
Proof.
  intros data. unfold add_emission_data_to_json. fold data.
  destruct (visit_years (keys data) data (rng w)) as [[data1|e] g1] eqn:V.
  - unfold save_emission_data, write_json.
    destruct (writable (fs w)) eqn:W; simpl.
    + right. exists data1, g1. auto.
    + left. auto.
  - left. simpl. auto.
Qed.

Lemma getitem_none_same_keys {A B} (k : string) (d1 : dict A) (d2 : dict B) :
  keys d1 = keys d2 -> getitem k d1 = None -> getitem k d2 = None.
Proof.
  intros Hk H1. destruct (getitem k d2) eqn:G2; [|reflexivity].
  assert (Hin : In k (keys d2)) by (apply getitem_In_keys; congruence).
  rewrite <- Hk in Hin. apply getitem_In_keys in Hin. contradiction.
Qed.

Lemma visit_years_all_settled data g data1 g1 y yd1 d v1 :
  visit_years (keys data) data g = (Returns data1, g1) ->
  getitem y data1 = Some yd1 ->
  getitem d yd1 = Some v1 ->
  settled d v1 = true.
Proof.
  intros V Gy Gd. apply visit_years_spec in V. destruct V as (_ & Hk & Hyears).
  destruct (getitem y data) as [yd|] eqn:Gy0.
  - destruct (Hyears y yd Gy0) as (yd1' & Gy1 & Hk1 & Hent).
    assert (yd1' = yd1) by congruence. subst yd1'.
    destruct (getitem d yd) as [v|] eqn:Gd0.
    + destruct (Hent d v Gd0) as (v1' & Gd1 & Hrel).
      assert (v1' = v1) by congruence. subst v1'.
      eapply settled_after; [|exact Hrel].
      apply getitem_In_keys. congruence.
    + rewrite (getitem_none_same_keys d yd yd1 (eq_sym Hk1) Gd0) in Gd.
      discriminate.
  - rewrite (getitem_none_same_keys y data data1 (eq_sym Hk) Gy0) in Gy.
    discriminate.
Qed.

Lemma stored_entry_document data wr year district :
  stored_entry {| state_file := Document data; writable := wr |} year district
  = match getitem year data with
    | Some yd => getitem district yd
    | None => None
    end.
Proof. reflexivity. Qed.

(** A second call in a row leaves every stored entry as the first call
    left it. *)
Lemma second_call_changes_nothing (w : world) (year district : string) :
  let w1 := snd (add_emission_data_to_json w) in
  let w2 := snd (add_emission_data_to_json w1) in
  stored_entry (fs w2) year district = stored_entry (fs w1) year district.
Proof.
  intros w1 w2.
  destruct (add_emission_data_to_json_cases w)
    as [(Hfs & _ & Hwhy) | (data1 & g1 & V & W & Hadd)].
  - (* the first call wrote nothing *)
    destruct (add_emission_data_to_json_cases w1)
      as [(Hfs2 & _) | (data2 & g2 & V2 & W2 & _)].
    + unfold w2. now rewrite Hfs2.
    + exfalso. unfold w1 in V2, W2. rewrite Hfs in V2, W2.
      destruct Hwhy as [Hw | Hr]; [congruence|].
      rewrite (visit_years_raises_whatever_drawn _ _ _
                 (rng (snd (add_emission_data_to_json w)))) in Hr.
      rewrite V2 in Hr. discriminate.
  - (* the first call wrote [data1] *)
    assert (Hw1 : w1 = {| fs := {| state_file := Document data1; writable := true |};
                          rng := g1 |}).
    { unfold w1. now rewrite Hadd. }
    destruct (add_emission_data_to_json_cases w1)
      as [(Hfs2 & _) | (data2 & g2 & V2 & W2 & Hadd2)].
    + unfold w2. now rewrite Hfs2.
    + unfold w2. rewrite Hadd2. rewrite Hw1 in *. simpl in *.
      unfold load_emission_data, read_json in V2. simpl in V2.
      rewrite !stored_entry_document.
      pose proof (visit_years_spec _ _ _ _ _ V2) as (_ & Hk & Hyears).
      destruct (getitem year data1) as [yd1|] eqn:Gy.
      * destruct (Hyears year yd1 Gy) as (yd2 & Gy2 & Hk2 & Hent).
        rewrite Gy2.
        destruct (getitem district yd1) as [v1|] eqn:Gd.
        -- destruct (Hent district v1 Gd) as (v2 & Gd2 & Hsame & _).
           rewrite Gd2. f_equal. apply Hsame. left.
           exact (visit_years_all_settled _ _ _ _ _ _ _ _ V Gy Gd).
        -- now apply (getitem_none_same_keys district yd1 yd2).
      * now rewrite (getitem_none_same_keys year data1 data2 (eq_sym Hk) Gy).
Qed.

(** A call leaves alone every entry the loop body skips. *)
Lemma settled_entry_kept (w : world) (year district : string) (v : json) :
  stored_entry (fs w) year district = Some v ->
  settled district v = true ->
  stored_entry (fs (snd (add_emission_data_to_json w))) year district = Some v.
Proof.
  intros Hv Hs.
  destruct (add_emission_data_to_json_cases w)
    as [(Hfs & _) | (data1 & g1 & V & W & Hadd)].
  - now rewrite Hfs.
  - rewrite Hadd. simpl. rewrite stored_entry_document.
    unfold stored_entry in Hv. unfold load_emission_data, read_json in V.
    destruct (state_file (fs w)) as [data|e]; [|discriminate]. simpl in V.
    apply visit_years_spec in V. destruct V as (_ & _ & Hyears).
    destruct (getitem year data) as [yd|] eqn:Gy; [|discriminate].
    destruct (Hyears year yd Gy) as (yd1 & Gy1 & _ & Hent).
    rewrite Gy1. destruct (Hent district v Hv) as (v1 & Gd1 & Hsame & _).
    rewrite Gd1. f_equal. apply Hsame. now left.
Qed.

(** C4: two calls of [add_emission_data_to_json] in a row leave the same
    [total_emission] for every district and year as one call, whatever the
    generator draws; and a call leaves unchanged every record that already
    has a [total_emission] field. *)
Theorem C4_generation_is_idempotent (w : world) (year district : string) :
  let w1 := snd (add_emission_data_to_json w) in
  let w2 := snd (add_emission_data_to_json w1) in
  stored_total (fs w2) year district = stored_total (fs w1) year district
  /\ forall record,
       stored_entry (fs w) year district = Some (JObj record) ->
       contains "total_emission" record = true ->
       stored_entry (fs w1) year district = Some (JObj record).
Proof.
  intros w1 w2. split.
  - unfold stored_total. unfold w2, w1.
    now rewrite (second_call_changes_nothing w year district).
  - intros record Hrec Htot. apply settled_entry_kept; [assumption|].
    unfold settled, has_total. simpl. rewrite Htot. apply orb_true_r.
Qed.

(** *** What a populated record holds *)

Lemma populated_eq (district : string) (record : dict json) (g : rng_state) :
  let c := EMISSION_CONFIG (classify district) in
  let te := draw (transport c) g 0 in
  let ie := draw (industrial c) g 1 in
  let re := draw (residential c) g 2 in
  populated district record g
  = setitem "total_emission" (float_json (round2 (sum [te; ie; re])))
      (setitem "residential_emission" (float_json re)
         (setitem "industrial_emission" (float_json ie)
            (setitem "transport_emission" (float_json te) record))).
Proof. reflexivity. Qed.

Lemma populated_frame district record g k :
  emission_field k = false ->
  getitem k (populated district record g) = getitem k record.
Proof.
  unfold emission_field. intros H.
  apply orb_false_iff in H as [H Ht]. apply orb_false_iff in H as [H Hr].
  apply orb_false_iff in H as [Hte Hie].
  apply String.eqb_neq in Ht, Hr, Hte, Hie.
  rewrite populated_eq. cbv zeta.
  now rewrite !getitem_setitem_other.
Qed.

Lemma draw_in_range (r : range) (g : rng_state) (n : nat) :
  (min r <= max r)%Z ->
  (forall m, 0 <= random_seq g m < 1)%Q ->
  in_range r (draw r g n).
Proof.
  intros Hr Hu. unfold in_range, draw. apply round2_bounds.
  apply uniform_in_range; [|apply Hu]. now rewrite <- Zle_Qle.
Qed.

Lemma config_ranges_ordered (t : district_type) :
  (min (transport (EMISSION_CONFIG t)) <= max (transport (EMISSION_CONFIG t)))%Z
  /\ (min (industrial (EMISSION_CONFIG t)) <= max (industrial (EMISSION_CONFIG t)))%Z
  /\ (min (residential (EMISSION_CONFIG t)) <= max (residential (EMISSION_CONFIG t)))%Z.
Proof.
  destruct t; simpl; lia.
Qed.

Lemma getitem_In {A} (k : string) (v : A) (d : dict A) :
  getitem k d = Some v -> In (k, v) d.
Proof.
  induction d as [|[k' v'] d IH]; simpl; [discriminate|].
  destruct (String.eqb k k') eqn:E.
  - apply String.eqb_eq in E. intros H. injection H as ->. subst. now left.
  - intros H. right. now apply IH.
Qed.

Lemma records_only_clean (data : store) :
  records_only data = true -> forallb (year_clean data) (keys data) = true.
Proof.
  intros Hrec. unfold records_only in Hrec.
  rewrite forallb_forall in Hrec.
  apply forallb_forall. intros y Hy.
  apply getitem_In_keys in Hy. unfold year_clean.
  destruct (getitem y data) as [yd|] eqn:Gy; [|contradiction].
  pose proof (Hrec _ (getitem_In _ _ _ Gy)) as Hyd. simpl in Hyd.
  rewrite forallb_forall in Hyd.
  apply forallb_forall. intros d Hd.
  apply getitem_In_keys in Hd. unfold entry_clean.
  destruct (getitem d yd) as [v|] eqn:Gd; [|contradiction].
  pose proof (Hyd _ (getitem_In _ _ _ Gd)) as Hv. simpl in Hv.
  destruct (String.eqb d "timestamp"); [reflexivity|]. simpl in *.
  destruct v; try discriminate. simpl. now destruct (contains _ _).
Qed.

(** C1 (as the code has it): when the state file holds a store whose
    district entries are records and can be written, and the generator
    draws from [0,1), [add_emission_data_to_json] returns [True] and every
    district already present under a year without a [total_emission]
    field gets three emission figures, each within its density class's
    [min,max] range, and a [total_emission] that is the rounded sum of the
    three (which equals their sum). *)
Theorem C1_present_districts_are_populated
  (w : world) (data : store) (year district : string)
  (year_data record : dict json) :
  state_file (fs w) = Document data ->
  writable (fs w) = true ->
  records_only data = true ->
  (forall n, 0 <= random_seq (rng w) n < 1)%Q ->
  getitem year data = Some year_data ->
  getitem district year_data = Some (JObj record) ->
  district <> "timestamp" ->
  contains "total_emission" record = false ->
  fst (add_emission_data_to_json w) = true
  /\ exists record' te ie re,
       stored_entry (fs (snd (add_emission_data_to_json w))) year district
       = Some (JObj record')
       /\ getitem "transport_emission" record' = Some (float_json te)
       /\ getitem "industrial_emission" record' = Some (float_json ie)
       /\ getitem "residential_emission" record' = Some (float_json re)
       /\ in_range (transport (EMISSION_CONFIG (classify district))) te
       /\ in_range (industrial (EMISSION_CONFIG (classify district))) ie
       /\ in_range (residential (EMISSION_CONFIG (classify district))) re
       /\ getitem "total_emission" record'
          = Some (float_json (round2 (sum [te; ie; re])))
       /\ (round2 (sum [te; ie; re]) == te + ie + re)%Q.
Proof.
  intros Hfile Hw Hrec Hu Gy Gd Hts Hnt.
  assert (Hload : load_emission_data (fs w) = data).
  { unfold load_emission_data, read_json. now rewrite Hfile. }
  destruct (add_emission_data_to_json_cases w)
    as [(_ & _ & [Hbad | Hbad]) | (data1 & g1 & V & _ & Hadd)].
  - congruence.
  - rewrite Hload, visit_years_clean, records_only_clean in Hbad by assumption.
    discriminate.
  - rewrite Hload in V. rewrite Hadd. simpl. split; [reflexivity|].
    rewrite stored_entry_document.
    apply visit_years_spec in V. destruct V as (_ & _ & Hyears).
    destruct (Hyears year year_data Gy) as (yd1 & Gy1 & _ & Hent).
    destruct (Hent district _ Gd) as (v1 & Gd1 & _ & Hpop).
    rewrite Gy1, Gd1.
    destruct Hpop as (record0 & g0 & Hseq & Hr0 & ->).
    { unfold settled, has_total. simpl. rewrite Hnt.
      apply String.eqb_neq in Hts. now rewrite Hts. }
    { apply getitem_In_keys. congruence. }
    injection Hr0 as <-.
    pose (c := EMISSION_CONFIG (classify district)).
    exists (populated district record g0),
      (draw (transport c) g0 0), (draw (industrial c) g0 1),
      (draw (residential c) g0 2).
    assert (Hu0 : (forall m, 0 <= random_seq g0 m < 1)%Q)
      by (now rewrite Hseq).
    destruct (config_ranges_ordered (classify district)) as (Ot & Oi & Or).
    split; [reflexivity|].
    rewrite populated_eq. cbv zeta. fold c.
    repeat split;
      try (rewrite ?getitem_setitem_same;
           repeat (rewrite getitem_setitem_other by discriminate);
           rewrite ?getitem_setitem_same; reflexivity);
      try (now apply draw_in_range).
    apply round2_sum_of_rounded.
Qed.

(** C6 (as the code has it): [add_emission_data_to_json] takes no year
    and goes over every year of the store.  Whatever it returns, the
    state file afterwards holds the same years and, under each, the
    same districts; the [timestamp] entry, every entry that is not a
    record and every record that already has [total_emission] are
    unchanged; any other record differs at most in the four emission
    fields. *)
Theorem C6_only_emission_fields_change (w : world) (data : store) :
  state_file (fs w) = Document data ->
  exists data',
    state_file (fs (snd (add_emission_data_to_json w))) = Document data'
    /\ keys data' = keys data
    /\ forall year year_data,
         getitem year data = Some year_data ->
         exists year_data',
           getitem year data' = Some year_data'
           /\ keys year_data' = keys year_data
           /\ forall district v,
                getitem district year_data = Some v ->
                exists v',
                  getitem district year_data' = Some v'
                  /\ (district = "timestamp" -> v' = v)
                  /\ (is_record v = false -> v' = v)
                  /\ forall record,
                       v = JObj record ->
                       exists record',
                         v' = JObj record'
                         /\ (contains "total_emission" record = true ->
                             record' = record)
                         /\ forall k, emission_field k = false ->
                              getitem k record' = getitem k record.
Proof.
  intros Hfile.
  assert (Hload : load_emission_data (fs w) = data).
  { unfold load_emission_data, read_json. now rewrite Hfile. }
  destruct (add_emission_data_to_json_cases w)
    as [(Hfs & _) | (data1 & g1 & V & _ & Hadd)].
  - exists data. rewrite Hfs. split; [assumption|]. split; [reflexivity|].
    intros year yd Gy. exists yd. repeat split; try assumption.
    intros d v Gd. exists v. repeat split; try assumption.
    intros record ->. exists record. auto.
  - rewrite Hload in V. exists data1. rewrite Hadd. simpl.
    split; [reflexivity|].
    apply visit_years_spec in V. destruct V as (_ & Hk & Hyears).
    split; [assumption|].
    intros year yd Gy.
    destruct (Hyears year yd Gy) as (yd1 & Gy1 & Hk1 & Hent).
    exists yd1. split; [assumption|]. split; [assumption|].
    intros d v Gd.
    destruct (Hent d v Gd) as (v1 & Gd1 & Hsame & Hpop).
    exists v1. split; [assumption|].
    assert (Hin : In year (keys data)) by (apply getitem_In_keys; congruence).
    split; [|split].
    + intros ->. apply Hsame. now left.
    + intros Hnr. destruct (settled d v) eqn:S; [apply Hsame; now left|].
      destruct (Hpop eq_refl Hin) as (r & g0 & _ & -> & _). discriminate.
    + intros record ->.
      destruct (settled d (JObj record)) eqn:S.
      * rewrite (Hsame (or_introl eq_refl)). exists record. auto.
      * destruct (Hpop eq_refl Hin) as (r & g0 & _ & Hr & ->).
        injection Hr as <-. exists (populated d record g0).
        split; [reflexivity|]. split.
        -- intros Ht. unfold settled, has_total in S. simpl in S.
           rewrite Ht in S. rewrite orb_true_r in S. discriminate.
        -- intros k Hk0. now apply populated_frame.
Qed.

(** ** The emission breakdown *)

Lemma percentage_value (record : dict json) (field : string) (total : json)
  (x T : Q) :
  field_number record field = Some x ->
  getitem "total_emission" record = Some total ->
  as_number total = Some T ->
  (0 < T)%Q ->
  percentage (JObj record) field = Returns (round2 (x / T * 100)).
Proof.
  unfold field_number, percentage, truediv. simpl. intros -> -> -> HT.
  destruct (Qeq_bool T 0) eqn:E; [|reflexivity].
  apply Qeq_bool_iff in E. rewrite E in HT. discriminate HT.
Qed.

Lemma exact_shares_sum (t i r T : Q) :
  (0 < T)%Q -> (t + i + r == T)%Q ->
  (t / T * 100 + i / T * 100 + r / T * 100 == 100)%Q.
Proof.
  intros HT Hsum.
  assert (HT0 : ~ (T == 0)%Q) by (intros E; rewrite E in HT; discriminate HT).
  assert (E : (t / T * 100 + i / T * 100 + r / T * 100
               == (t + i + r) / T * 100)%Q) by (field; exact HT0).
  rewrite E, Hsum. field. exact HT0.
Qed.

Lemma shares_sum_near (t i r T : Q) :
  (0 < T)%Q ->
  (Qabs (t + i + r - T) <= T * (1 # 2000))%Q ->
  (- (1 # 20) <= t / T * 100 + i / T * 100 + r / T * 100 - 100 <= 1 # 20)%Q.
Proof.
  intros HT Hsum.
  apply Qabs_Qle_condition in Hsum.
  assert (HT0 : ~ (T == 0)%Q) by (intros E; rewrite E in HT; discriminate HT).
  pose proof (Qinv_lt_0_compat T HT) as Hk.
  pose proof (Qmult_inv_r T HT0) as Hone.
  unfold Qdiv. set (k := (/ T)%Q) in *. clearbody k.
  nra.
Qed.

(** C9 (as the code has it): for a stored record whose three emission
    components (a missing one counting as 0) are non-negative numbers
    and whose [total_emission] is positive, at most 10^300, and equal to
    their sum to within 0.05% of the total, as for every record the
    generator writes, [get_emission_by_district] returns a view whose
    three percentages, each rounded to 2 decimals, sum to 100 within 0.1.
    Numbers are exact rationals here: the sign conditions and the bound
    on the total keep the binary computation of the source away from
    overflow, and the exact sum is within 0.065 of 100, which leaves
    room for its rounding. *)
Theorem C9_breakdown_of_consistent_record
  (f : filesystem) (data : store) (year district : string)
  (year_data record : dict json) (total : json) (t i r T : Q) :
  state_file f = Document data ->
  getitem year data = Some year_data ->
  getitem district year_data = Some (JObj record) ->
  getitem "total_emission" record = Some total ->
  as_number total = Some T ->
  field_number record "transport_emission" = Some t ->
  field_number record "industrial_emission" = Some i ->
  field_number record "residential_emission" = Some r ->
  (0 <= t)%Q -> (0 <= i)%Q -> (0 <= r)%Q ->
  (0 < T)%Q ->
  (T <= inject_Z (10 ^ 300))%Q ->
  (Qabs (t + i + r - T) <= T * (1 # 2000))%Q ->
  exists view,
    get_emission_by_district district year f = Some view
    /\ (Qabs (breakdown_sum (ev_breakdown view) - 100) <= 1 # 10)%Q.
Proof.
  intros Hfile Gy Gd Gt HT Ht Hi Hr _ _ _ Hpos _ Hsum.
  eexists. split.
  - unfold get_emission_by_district, get_emission_by_district_body,
      load_emission_data, read_json, try_except.
    rewrite Hfile. simpl. rewrite Gy, Gd. simpl.
    unfold contains. rewrite Gt. simpl.
    rewrite (percentage_value record _ total t T Ht Gt HT Hpos).
    rewrite (percentage_value record _ total i T Hi Gt HT Hpos).
    rewrite (percentage_value record _ total r T Hr Gt HT Hpos).
    cbn [bind]. reflexivity.
  - unfold breakdown_sum.
    cbn [ev_breakdown transport_percentage industrial_percentage
         residential_percentage].
    pose proof (round2_close (t / T * 100)) as Ct.
    pose proof (round2_close (i / T * 100)) as Ci.
    pose proof (round2_close (r / T * 100)) as Cr.
    pose proof (shares_sum_near t i r T Hpos Hsum) as Hex.
    set (a := (t / T * 100)%Q) in *.
    set (b := (i / T * 100)%Q) in *.
    set (c := (r / T * 100)%Q) in *.
    clearbody a b c.
    apply (proj2 (Qabs_Qle_condition _ _)). lra.
Qed.

(** ** The statements on sample inputs *)

Lemma half_rng_draws : (forall n, 0 <= random_seq half_rng n < 1)%Q.
Proof.
  intros n. split; [discriminate | reflexivity].
Qed.

Lemma C1_present_districts_are_populated_witness :
  fst (add_emission_data_to_json sample_world) = true
  /\ exists record' te ie re,
       stored_entry (fs (snd (add_emission_data_to_json sample_world)))
         "2025" "Anekal" = Some (JObj record')
       /\ getitem "transport_emission" record' = Some (float_json te)
       /\ getitem "industrial_emission" record' = Some (float_json ie)
       /\ getitem "residential_emission" record' = Some (float_json re)
       /\ in_range (transport (EMISSION_CONFIG (classify "Anekal"))) te
       /\ in_range (industrial (EMISSION_CONFIG (classify "Anekal"))) ie
       /\ in_range (residential (EMISSION_CONFIG (classify "Anekal"))) re
       /\ getitem "total_emission" record'
          = Some (float_json (round2 (sum [te; ie; re])))
       /\ (round2 (sum [te; ie; re]) == te + ie + re)%Q.
Proof.
  apply (C1_present_districts_are_populated sample_world sample_store
           "2025" "Anekal"
           [ ("timestamp", JStr "2025-01-01T00:00:00");
             ("Kolar", JObj [ ("co2_concentration", int_json 410);
                              ("co2_concentration_after_dispersion", int_json 405);
                              ("transport_emission", float_json 1300);
                              ("industrial_emission", float_json 1250);
                              ("residential_emission", float_json 1350);
                              ("total_emission", float_json 3900) ]);
             ("Anekal", JObj [ ("co2_concentration", int_json 420) ]) ]
           [ ("co2_concentration", int_json 420) ]);
    try reflexivity.
  - exact half_rng_draws.
  - discriminate.
Defined.

(** C1 as stated fails: from an empty store the call writes an empty
    store back; the registered district Kolar is not populated. *)
Lemma C1_empty_store_stays_empty :
  getitem "Kolar" DISTRICT_TYPES = Some suburban
  /\ add_emission_data_to_json {| fs := empty_fs; rng := half_rng |}
     = (true, {| fs := empty_fs; rng := half_rng |})
  /\ stored_entry
       (fs (snd (add_emission_data_to_json {| fs := empty_fs; rng := half_rng |})))
       "2025" "Kolar" = None.
Proof.
  repeat split.
Qed.

Lemma C4_generation_is_idempotent_witness :
  stored_total
    (fs (snd (add_emission_data_to_json
                (snd (add_emission_data_to_json sample_world)))))
    "2025" "Kolar"
  = stored_total (fs (snd (add_emission_data_to_json sample_world)))
      "2025" "Kolar"
  /\ stored_entry (fs (snd (add_emission_data_to_json sample_world)))
       "2025" "Kolar"
     = Some (JObj [ ("co2_concentration", int_json 410);
                    ("co2_concentration_after_dispersion", int_json 405);
                    ("transport_emission", float_json 1300);
                    ("industrial_emission", float_json 1250);
                    ("residential_emission", float_json 1350);
                    ("total_emission", float_json 3900) ]).
Proof.
  destruct (C4_generation_is_idempotent sample_world "2025" "Kolar") as [H1 H2].
  split; [exact H1|].
  apply H2; reflexivity.
Defined.

Lemma C6_only_emission_fields_change_witness :
  exists data',
    state_file (fs (snd (add_emission_data_to_json sample_world)))
    = Document data'
    /\ keys data' = keys sample_store
    /\ forall year year_data,
         getitem year sample_store = Some year_data ->
         exists year_data',
           getitem year data' = Some year_data'
           /\ keys year_data' = keys year_data
           /\ forall district v,
                getitem district year_data = Some v ->
                exists v',
                  getitem district year_data' = Some v'
                  /\ (district = "timestamp" -> v' = v)
                  /\ (is_record v = false -> v' = v)
                  /\ forall record,
                       v = JObj record ->
                       exists record',
                         v' = JObj record'
                         /\ (contains "total_emission" record = true ->
                             record' = record)
                         /\ forall k, emission_field k = false ->
                              getitem k record' = getitem k record.
Proof.
  apply (C6_only_emission_fields_change sample_world sample_store).
  reflexivity.
Defined.

(** C6 as stated fails: called for "2025", the generator also rewrites
    the record of Hosakote under "2024". *)
Lemma C6_other_year_is_rewritten :
  stored_entry (fs two_year_world) "2024" "Hosakote" = Some (JObj [])
  /\ stored_entry (fs (snd (add_emission_data_to_json two_year_world)))
       "2024" "Hosakote"
     = Some (JObj [ ("transport_emission", float_json (130000 # 100));
                    ("industrial_emission", float_json (125000 # 100));
                    ("residential_emission", float_json (135000 # 100));
                    ("total_emission", float_json (390000 # 100)) ])
  /\ stored_entry (fs (snd (add_emission_data_to_json two_year_world)))
       "2024" "Hosakote"
     <> stored_entry (fs two_year_world) "2024" "Hosakote".
Proof.
  split; [reflexivity|]. split; [vm_compute; reflexivity|].
  vm_compute. discriminate.
Qed.

Lemma C9_breakdown_of_consistent_record_witness :
  exists view,
    get_emission_by_district "Kolar" "2025" drifted_fs = Some view
    /\ (Qabs (breakdown_sum (ev_breakdown view) - 100) <= 1 # 10)%Q.
Proof.
  apply (C9_breakdown_of_consistent_record drifted_fs
           [ ("2025",
              [ ("Kolar", JObj [ ("transport_emission", float_json (130001 # 100));
                                 ("industrial_emission", float_json (125002 # 100));
                                 ("residential_emission", float_json (135003 # 100));
                                 ("total_emission",
                                  float_json (39000600000000001 # 10000000000000)) ]) ]) ]
           "2025" "Kolar"
           [ ("Kolar", JObj [ ("transport_emission", float_json (130001 # 100));
                              ("industrial_emission", float_json (125002 # 100));
                              ("residential_emission", float_json (135003 # 100));
                              ("total_emission",
                               float_json (39000600000000001 # 10000000000000)) ]) ]
           [ ("transport_emission", float_json (130001 # 100));
             ("industrial_emission", float_json (125002 # 100));
             ("residential_emission", float_json (135003 # 100));
             ("total_emission", float_json (39000600000000001 # 10000000000000)) ]
           (float_json (39000600000000001 # 10000000000000))
           (130001 # 100) (125002 # 100) (135003 # 100)
           (39000600000000001 # 10000000000000))%Q.
  - reflexivity.
  - reflexivity.
  - reflexivity.
  - reflexivity.
  - reflexivity.
  - reflexivity.
  - reflexivity.
  - reflexivity.
  - apply Qle_bool_imp_le. vm_compute. reflexivity.
  - apply Qle_bool_imp_le. vm_compute. reflexivity.
  - apply Qle_bool_imp_le. vm_compute. reflexivity.
  - vm_compute. reflexivity.
  - apply Qle_bool_imp_le. vm_compute. reflexivity.
  - apply Qle_bool_imp_le. vm_compute. reflexivity.
Defined.

(** C9 as stated fails: a record with a positive [total_emission] and
    no components has the three percentages 0, which sum to 0. *)
Lemma C9_bare_total_sums_to_zero :
  exists view,
    get_emission_by_district "Kolar" "2025" bare_total_fs = Some view
    /\ as_number (ev_total_emission view) = Some 100%Q
    /\ (breakdown_sum (ev_breakdown view) == 0)%Q
    /\ ~ (Qabs (breakdown_sum (ev_breakdown view) - 100) <= 1 # 10)%Q.
Proof.
  eexists. split; [vm_compute; reflexivity|].
  split; [reflexivity|]. split; [reflexivity|].
  vm_compute. intros H. now apply H.
Qed.

(** * Further properties *)

(** ** The emission figures drawn *)

(** X1: when the generator draws from [0,1), [get_random_emission]
    returns exactly the three emission keys, each figure positive and
    within the class's [min,max] range, and advances the generator by
    three draws. *)
Theorem X1_random_emission_in_range (t : district_type) (g : rng_state) :
  (forall n, 0 <= random_seq g n < 1)%Q ->
  exists te ie re,
    get_random_emission t g
    = ([ ("transport_emission", te);
         ("industrial_emission", ie);
         ("residential_emission", re) ],
       {| random_seq := random_seq g; position := 3 + position g |})
    /\ in_range (transport (EMISSION_CONFIG t)) te
    /\ in_range (industrial (EMISSION_CONFIG t)) ie
    /\ in_range (residential (EMISSION_CONFIG t)) re
    /\ (0 < te /\ 0 < ie /\ 0 < re)%Q.
Proof.
  intros Hu.
  destruct (config_ranges_ordered t) as (Ot & Oi & Or).
  pose proof (draw_in_range (transport (EMISSION_CONFIG t)) g 0 Ot Hu) as Ht.
  pose proof (draw_in_range (industrial (EMISSION_CONFIG t)) g 1 Oi Hu) as Hi.
  pose proof (draw_in_range (residential (EMISSION_CONFIG t)) g 2 Or Hu) as Hr.
  exists (draw (transport (EMISSION_CONFIG t)) g 0),
    (draw (industrial (EMISSION_CONFIG t)) g 1),
    (draw (residential (EMISSION_CONFIG t)) g 2).
  split; [reflexivity|]. repeat split; try apply Ht; try apply Hi; try apply Hr.
  - eapply Qlt_le_trans; [|apply Ht]. destruct t; reflexivity.
  - eapply Qlt_le_trans; [|apply Hi]. destruct t; reflexivity.
  - eapply Qlt_le_trans; [|apply Hr]. destruct t; reflexivity.
Qed.

Lemma X1_random_emission_in_range_witness :
  exists te ie re,
    get_random_emission suburban half_rng
    = ([ ("transport_emission", te);
         ("industrial_emission", ie);
         ("residential_emission", re) ],
       {| random_seq := random_seq half_rng; position := 3 + position half_rng |})
    /\ in_range (transport (EMISSION_CONFIG suburban)) te
    /\ in_range (industrial (EMISSION_CONFIG suburban)) ie
    /\ in_range (residential (EMISSION_CONFIG suburban)) re
    /\ (0 < te /\ 0 < ie /\ 0 < re)%Q.
Proof.
  apply (X1_random_emission_in_range suburban half_rng).
  exact half_rng_draws.
Defined.

(** ** The single-district query *)

Lemma percentage_of_record (record : dict json) (field : string) (total : json)
  (x T : Q) :
  field_number record field = Some x ->
  getitem "total_emission" record = Some total ->
  as_number total = Some T ->
  ~ (T == 0)%Q ->
  percentage (JObj record) field = Returns (round2 (x / T * 100)).
Proof.
  unfold field_number, percentage, truediv. simpl. intros -> -> -> HT.
  destruct (Qeq_bool T 0) eqn:E; [|reflexivity].
  apply Qeq_bool_iff in E. contradiction.
Qed.

Lemma percentage_returns (record : dict json) (field : string) (total : json)
  (p : Q) :
  getitem "total_emission" record = Some total ->
  percentage (JObj record) field = Returns p ->
  exists x T,
    as_number total = Some T
    /\ ~ (T == 0)%Q
    /\ field_number record field = Some x
    /\ p = round2 (x / T * 100).
Proof.
  unfold percentage, truediv, field_number. simpl. intros ->.
  destruct (as_number (match getitem field record with
                       | Some x => x | None => int_json 0 end)) as [x|];
    [|discriminate].
  destruct (as_number total) as [T|]; [|discriminate].
  destruct (Qeq_bool T 0) eqn:E; [discriminate|].
  intros H. injection H as <-.
  exists x, T. repeat split; try reflexivity.
  intros HT. apply Qeq_bool_iff in HT. congruence.
Qed.

Lemma get_emission_by_district_some district year f record total t i r T :
  stored_entry f year district = Some (JObj record) ->
  getitem "total_emission" record = Some total ->
  as_number total = Some T ->
  ~ (T == 0)%Q ->
  field_number record "transport_emission" = Some t ->
  field_number record "industrial_emission" = Some i ->
  field_number record "residential_emission" = Some r ->
  get_emission_by_district district year f
  = Some (view_of district year record total t i r T).
Proof.
  intros Hst Gt HT HT0 Ht Hi Hr.
  unfold stored_entry in Hst.
  unfold get_emission_by_district, get_emission_by_district_body,
    load_emission_data, read_json, try_except.
  destruct (state_file f) as [data|e]; [|discriminate]. simpl.
  destruct (getitem year data) as [yd|]; [|discriminate].
  rewrite Hst. simpl. unfold contains. rewrite Gt. simpl.
  rewrite (percentage_of_record record _ total t T Ht Gt HT HT0).
  rewrite (percentage_of_record record _ total i T Hi Gt HT HT0).
  rewrite (percentage_of_record record _ total r T Hr Gt HT HT0).
  reflexivity.
Qed.

Lemma get_emission_by_district_inv district year f view :
  get_emission_by_district district year f = Some view ->
  exists record total t i r T,
    stored_entry f year district = Some (JObj record)
    /\ getitem "total_emission" record = Some total
    /\ as_number total = Some T
    /\ ~ (T == 0)%Q
    /\ field_number record "transport_emission" = Some t
    /\ field_number record "industrial_emission" = Some i
    /\ field_number record "residential_emission" = Some r
    /\ view = view_of district year record total t i r T.
Proof.
  unfold get_emission_by_district, get_emission_by_district_body,
    load_emission_data, read_json, try_except, stored_entry.
  destruct (state_file f) as [data|e]; [|discriminate]. simpl.
  destruct (getitem year data) as [yd|]; [|discriminate].
  destruct (getitem district yd) as [v|]; [|discriminate].
  destruct (py_in "total_emission" v) as [[|]|] eqn:Pin; simpl;
    try discriminate.
  destruct v as [| | | | |record]; simpl; try discriminate.
  simpl in Pin. unfold contains in Pin.
  destruct (getitem "total_emission" record) as [total|] eqn:Gt;
    [|discriminate].
  destruct (percentage (JObj record) "transport_emission") as [tp|] eqn:Pt;
    simpl; [|discriminate].
  destruct (percentage (JObj record) "industrial_emission") as [ip|] eqn:Pi;
    simpl; [|discriminate].
  destruct (percentage (JObj record) "residential_emission") as [rp|] eqn:Pr;
    simpl; [|discriminate].
  intros H. injection H as <-.
  destruct (percentage_returns _ _ _ _ Gt Pt) as (t & T & HT & HT0 & Ht & ->).
  destruct (percentage_returns _ _ _ _ Gt Pi) as (i & T' & HT' & _ & Hi & ->).
  destruct (percentage_returns _ _ _ _ Gt Pr) as (r & T'' & HT'' & _ & Hr & ->).
  assert (T' = T) by congruence. assert (T'' = T) by congruence. subst T' T''.
  exists record, total, t, i, r, T. repeat split; assumption || reflexivity.
Qed.

(** X3: whenever [get_emission_by_district] returns a view, the
    district's stored value is a record whose [total_emission] is a
    non-zero number and whose three components (0 when missing) are
    numbers, and the view carries the district, the year and the four
    stored figures (0 for a missing component).  In every other case
    (year or district absent, a value that is not a record, no
    [total_emission], a field that is not a number, a zero total) it
    returns [None]. *)
Theorem X3_view_only_for_numeric_records
  (district year : string) (f : filesystem) (view : emission_view) :
  get_emission_by_district district year f = Some view ->
  exists record total t i r T,
    stored_entry f year district = Some (JObj record)
    /\ getitem "total_emission" record = Some total
    /\ as_number total = Some T
    /\ ~ (T == 0)%Q
    /\ field_number record "transport_emission" = Some t
    /\ field_number record "industrial_emission" = Some i
    /\ field_number record "residential_emission" = Some r
    /\ ev_district view = district
    /\ ev_year view = year
    /\ py_get (JObj record) "transport_emission" (int_json 0)
       = Returns (ev_transport_emission view)
    /\ py_get (JObj record) "industrial_emission" (int_json 0)
       = Returns (ev_industrial_emission view)
    /\ py_get (JObj record) "residential_emission" (int_json 0)
       = Returns (ev_residential_emission view)
    /\ ev_total_emission view = total.
Proof.
  intros H. apply get_emission_by_district_inv in H.
  destruct H as (record & total & t & i & r & T
                 & Hst & Gt & HT & HT0 & Ht & Hi & Hr & ->).
  exists record, total, t, i, r, T.
  repeat split; assumption || reflexivity.
Qed.

Lemma X3_view_only_for_numeric_records_witness :
  exists view record total t i r T,
    get_emission_by_district "Kolar" "2025" sample_fs = Some view
    /\ stored_entry sample_fs "2025" "Kolar" = Some (JObj record)
    /\ getitem "total_emission" record = Some total
    /\ as_number total = Some T
    /\ ~ (T == 0)%Q
    /\ field_number record "transport_emission" = Some t
    /\ field_number record "industrial_emission" = Some i
    /\ field_number record "residential_emission" = Some r
    /\ ev_district view = "Kolar"
    /\ ev_year view = "2025"
    /\ py_get (JObj record) "transport_emission" (int_json 0)
       = Returns (ev_transport_emission view)
    /\ py_get (JObj record) "industrial_emission" (int_json 0)
       = Returns (ev_industrial_emission view)
    /\ py_get (JObj record) "residential_emission" (int_json 0)
       = Returns (ev_residential_emission view)
    /\ ev_total_emission view = total.
Proof.
  destruct (get_emission_by_district "Kolar" "2025" sample_fs) as [view|] eqn:G;
    [|vm_compute in G; discriminate].
  destruct (X3_view_only_for_numeric_records "Kolar" "2025" sample_fs view G)
    as (record & total & t & i & r & T & H).
  exists view, record, total, t, i, r, T. split; [reflexivity | exact H].
Defined.

(** ** The all-districts query *)

Lemma collect_emissions_flat_map names year f acc :
  collect_emissions names year f acc
  = (acc ++ flat_map
              (fun d => if String.eqb d "timestamp" then []
                        else match get_emission_by_district d year f with
                             | Some v => [v]
                             | None => []
                             end)
              names)%list.
Proof.
  revert acc. induction names as [|d names IH]; simpl; intros acc.
  - now rewrite app_nil_r.
  - destruct (String.eqb d "timestamp"); [apply IH|].
    destruct (get_emission_by_district d year f) as [v|].
    + rewrite IH, <- app_assoc. reflexivity.
    + apply IH.
Qed.

Lemma get_all_districts_as_flat_map (year : string) (f : filesystem) :
  get_all_districts_emission_data year f
  = match getitem year (load_emission_data f) with
    | None => []
    | Some year_data =>
        flat_map
          (fun d => if String.eqb d "timestamp" then []
                    else match get_emission_by_district d year f with
                         | Some v => [v]
                         | None => []
                         end)
          (keys year_data)
    end.
Proof.
  unfold get_all_districts_emission_data, try_except.
  destruct (getitem year (load_emission_data f)); [|reflexivity].
  now rewrite collect_emissions_flat_map.
Qed.

(** X4: [get_all_districts_emission_data] returns, in the order of the
    keys stored under the year, the view of every district other than
    [timestamp] for which [get_emission_by_district] returns one; it
    returns the empty list when the year is missing. *)
Theorem X4_all_districts_in_store_order (year : string) (f : filesystem) :
  get_all_districts_emission_data year f
  = match getitem year (load_emission_data f) with
    | None => []
    | Some year_data =>
        flat_map
          (fun d => if String.eqb d "timestamp" then []
                    else match get_emission_by_district d year f with
                         | Some v => [v]
                         | None => []
                         end)
          (keys year_data)
    end.
Proof.
  apply get_all_districts_as_flat_map.
Qed.

(** ** More on the generator *)

Lemma settled_has_total d v :
  settled d v = true -> d <> "timestamp" ->
  py_in "total_emission" v = Returns true.
Proof.
  unfold settled, has_total. intros H Hts.
  apply String.eqb_neq in Hts. rewrite Hts in H. simpl in H.
  destruct (py_in "total_emission" v) as [[|]|]; congruence.
Qed.

(** X5: after a call of [add_emission_data_to_json] that returned
    [True], the value stored for every district other than [timestamp],
    under every year, contains [total_emission]. *)
Theorem X5_true_call_leaves_no_district_without_total
  (w : world) (year district : string) (v : json) :
  fst (add_emission_data_to_json w) = true ->
  stored_entry (fs (snd (add_emission_data_to_json w))) year district = Some v ->
  district <> "timestamp" ->
  py_in "total_emission" v = Returns true.
Proof.
  intros Hok Hst Hts.
  destruct (add_emission_data_to_json_cases w)
    as [(_ & Hf & _) | (data1 & g1 & V & _ & Hadd)]; [congruence|].
  rewrite Hadd in Hst. simpl in Hst. rewrite stored_entry_document in Hst.
  destruct (getitem year data1) as [yd1|] eqn:Gy; [|discriminate].
  apply (settled_has_total district); [|assumption].
  exact (visit_years_all_settled _ _ _ _ _ _ _ _ V Gy Hst).
Qed.

Lemma X5_true_call_leaves_no_district_without_total_witness :
  py_in "total_emission"
    (JObj [ ("co2_concentration", int_json 420);
            ("transport_emission", float_json (225000 # 100));
            ("industrial_emission", float_json (350000 # 100));
            ("residential_emission", float_json (115000 # 100));
            ("total_emission", float_json (690000 # 100)) ])
  = Returns true.
Proof.
  apply (X5_true_call_leaves_no_district_without_total
           sample_world "2025" "Anekal").
  - reflexivity.
  - vm_compute. reflexivity.
  - discriminate.
Defined.

(** X6: when the value stored for some district other than [timestamp]
    is not a record and does not contain [total_emission], the call
    returns [False] and writes nothing: no other district is populated
    either. *)
Theorem X6_one_bad_entry_blocks_generation
  (w : world) (data : store) (year district : string)
  (year_data : dict json) (v : json) :
  state_file (fs w) = Document data ->
  getitem year data = Some year_data ->
  getitem district year_data = Some v ->
  district <> "timestamp" ->
  is_record v = false ->
  py_in "total_emission" v <> Returns true ->
  fst (add_emission_data_to_json w) = false
  /\ fs (snd (add_emission_data_to_json w)) = fs w.
Proof.
  intros Hfile Gy Gd Hts Hrec Hin.
  assert (Hload : load_emission_data (fs w) = data).
  { unfold load_emission_data, read_json. now rewrite Hfile. }
  destruct (add_emission_data_to_json_cases w)
    as [(Hfs & Hf & _) | (data1 & g1 & V & _ & _)]; [auto|].
  exfalso. rewrite Hload in V.
  pose proof (visit_years_clean (keys data) data (rng w)) as Hc.
  rewrite V in Hc. simpl in Hc. symmetry in Hc.
  rewrite forallb_forall in Hc.
  assert (Hy : In year (keys data)) by (apply getitem_In_keys; congruence).
  specialize (Hc year Hy). unfold year_clean in Hc. rewrite Gy in Hc.
  rewrite forallb_forall in Hc.
  assert (Hd : In district (keys year_data))
    by (apply getitem_In_keys; congruence).
  specialize (Hc district Hd). unfold entry_clean in Hc. rewrite Gd in Hc.
  apply String.eqb_neq in Hts. rewrite Hts in Hc. simpl in Hc.
  destruct (py_in "total_emission" v) as [[|]|]; congruence.
Qed.

Lemma X6_one_bad_entry_blocks_generation_witness :
  fst (add_emission_data_to_json blocked_world) = false
  /\ fs (snd (add_emission_data_to_json blocked_world)) = fs blocked_world.
Proof.
  apply (X6_one_bad_entry_blocks_generation blocked_world
           [ ("2025", [ ("Kolar", JObj []); ("Anekal", JNull) ]) ]
           "2025" "Anekal" [ ("Kolar", JObj []); ("Anekal", JNull) ] JNull);
    try reflexivity; discriminate.
Defined.

Lemma setitem_getitem_id {A} (k : string) (v : A) (d : dict A) :
  getitem k d = Some v -> setitem k v d = d.
Proof.
  induction d as [|[k' v'] d IH]; simpl; [discriminate|].
  destruct (String.eqb k k') eqn:E.
  - apply String.eqb_eq in E. intros H. injection H as ->. now subst.
  - intros H. now rewrite IH.
Qed.

Lemma visit_district_settled d yd g v :
  getitem d yd = Some v -> settled d v = true ->
  visit_district d yd g = (Returns yd, g).
Proof.
  unfold visit_district, settled, has_total. intros Gd Hs.
  destruct (String.eqb d "timestamp"); [reflexivity|]. simpl in Hs.
  rewrite Gd. destruct (py_in "total_emission" v) as [[|]|]; congruence.
Qed.

Lemma visit_districts_settled ks yd g :
  (forall d, In d ks -> exists v, getitem d yd = Some v /\ settled d v = true) ->
  visit_districts ks yd g = (Returns yd, g).
Proof.
  induction ks as [|k ks IH]; simpl; intros H; [reflexivity|].
  destruct (H k (or_introl eq_refl)) as (v & Gk & Hs).
  rewrite (visit_district_settled k yd g v Gk Hs).
  apply IH. intros d Hd. apply H. now right.
Qed.

Lemma visit_years_settled ys data g :
  (forall y, In y ys ->
     exists yd, getitem y data = Some yd
                /\ forall d, In d (keys yd) ->
                     exists v, getitem d yd = Some v /\ settled d v = true) ->
  visit_years ys data g = (Returns data, g).
Proof.
  induction ys as [|y ys IH]; simpl; intros H; [reflexivity|].
  destruct (H y (or_introl eq_refl)) as (yd & Gy & Hall).
  rewrite Gy, (visit_districts_settled _ yd g Hall).
  rewrite (setitem_getitem_id y yd data Gy).
  apply IH. intros y' Hy'. apply H. now right.
Qed.

(** X7: once a call has returned [True], a further call returns [True]
    and leaves both the state file and the random generator exactly as
    they were: nothing is drawn again. *)
Theorem X7_repeated_call_is_a_no_op (w : world) :
  fst (add_emission_data_to_json w) = true ->
  add_emission_data_to_json (snd (add_emission_data_to_json w))
  = (true, snd (add_emission_data_to_json w)).
Proof.
  intros Hok.
  destruct (add_emission_data_to_json_cases w)
    as [(_ & Hf & _) | (data1 & g1 & V & _ & Hadd)]; [congruence|].
  rewrite Hadd. simpl.
  unfold add_emission_data_to_json, load_emission_data, read_json. simpl.
  rewrite visit_years_settled; [reflexivity|].
  intros y Hy.
  destruct (getitem y data1) as [yd|] eqn:Gy;
    [|apply getitem_In_keys in Hy; contradiction].
  exists yd. split; [reflexivity|].
  intros d Hd.
  destruct (getitem d yd) as [v|] eqn:Gd;
    [|apply getitem_In_keys in Hd; contradiction].
  exists v. split; [reflexivity|].
  exact (visit_years_all_settled _ _ _ _ _ _ _ _ V Gy Gd).
Qed.

Lemma X7_repeated_call_is_a_no_op_witness :
  add_emission_data_to_json (snd (add_emission_data_to_json sample_world))
  = (true, snd (add_emission_data_to_json sample_world)).
Proof.
  apply (X7_repeated_call_is_a_no_op sample_world). reflexivity.
Defined.

(** ** Generation followed by the query *)

Lemma populated_after_call
  (w : world) (data : store) (year district : string)
  (year_data record : dict json) :
  state_file (fs w) = Document data ->
  writable (fs w) = true ->
  records_only data = true ->
  getitem year data = Some year_data ->
  getitem district year_data = Some (JObj record) ->
  district <> "timestamp" ->
  contains "total_emission" record = false ->
  fst (add_emission_data_to_json w) = true
  /\ exists g0,
       random_seq g0 = random_seq (rng w)
       /\ stored_entry (fs (snd (add_emission_data_to_json w))) year district
          = Some (JObj (populated district record g0)).
Proof.
  intros Hfile Hw Hrec Gy Gd Hts Hnt.
  assert (Hload : load_emission_data (fs w) = data).
  { unfold load_emission_data, read_json. now rewrite Hfile. }
  destruct (add_emission_data_to_json_cases w)
    as [(_ & _ & [Hbad | Hbad]) | (data1 & g1 & V & _ & Hadd)].
  - congruence.
  - rewrite Hload, visit_years_clean, records_only_clean in Hbad by assumption.
    discriminate.
  - rewrite Hload in V. rewrite Hadd. simpl. split; [reflexivity|].
    rewrite stored_entry_document.
    apply visit_years_spec in V. destruct V as (_ & _ & Hyears).
    destruct (Hyears year year_data Gy) as (yd1 & Gy1 & _ & Hent).
    destruct (Hent district _ Gd) as (v1 & Gd1 & _ & Hpop).
    rewrite Gy1, Gd1.
    destruct Hpop as (record0 & g0 & Hseq & Hr0 & ->).
    { unfold settled, has_total. simpl. rewrite Hnt.
      apply String.eqb_neq in Hts. now rewrite Hts. }
    { apply getitem_In_keys. congruence. }
    injection Hr0 as <-. exists g0. auto.
Qed.

Lemma breakdown_close (t i r T : Q) :
  (0 < T)%Q -> (t + i + r == T)%Q ->
  (Qabs (round2 (t / T * 100) + round2 (i / T * 100) + round2 (r / T * 100)
         - 100) <= 1 # 10)%Q.
Proof.
  intros Hpos Hsum.
  pose proof (round2_close (t / T * 100)) as Ct.
  pose proof (round2_close (i / T * 100)) as Ci.
  pose proof (round2_close (r / T * 100)) as Cr.
  pose proof (exact_shares_sum t i r T Hpos Hsum) as Hex.
  set (a := (t / T * 100)%Q) in *.
  set (b := (i / T * 100)%Q) in *.
  set (c := (r / T * 100)%Q) in *.
  clearbody a b c.
  apply (proj2 (Qabs_Qle_condition _ _)). lra.
Qed.

(** X8: when the state file holds a store whose district entries are
    records and can be written, and the generator draws from [0,1),
    then after [add_emission_data_to_json] the query
    [get_emission_by_district] returns a view for every district that
    was stored without [total_emission]: its transport emission lies in
    the district's class range, its total is positive, and its three
    percentages sum to 100 within 0.1. *)
Theorem X8_generated_district_is_queryable
  (w : world) (data : store) (year district : string)
  (year_data record : dict json) :
  state_file (fs w) = Document data ->
  writable (fs w) = true ->
  records_only data = true ->
  (forall n, 0 <= random_seq (rng w) n < 1)%Q ->
  getitem year data = Some year_data ->
  getitem district year_data = Some (JObj record) ->
  district <> "timestamp" ->
  contains "total_emission" record = false ->
  exists view te T,
    get_emission_by_district district year
      (fs (snd (add_emission_data_to_json w))) = Some view
    /\ ev_transport_emission view = float_json te
    /\ in_range (transport (EMISSION_CONFIG (classify district))) te
    /\ ev_total_emission view = float_json T
    /\ (0 < T)%Q
    /\ (Qabs (breakdown_sum (ev_breakdown view) - 100) <= 1 # 10)%Q.
Proof.
  intros Hfile Hw Hrec Hu Gy Gd Hts Hnt.
  destruct (populated_after_call w data year district year_data record
              Hfile Hw Hrec Gy Gd Hts Hnt) as (_ & g0 & Hseq & Hst).
  assert (Hu0 : (forall m, 0 <= random_seq g0 m < 1)%Q) by (now rewrite Hseq).
  pose (c := EMISSION_CONFIG (classify district)).
  destruct (config_ranges_ordered (classify district)) as (Ot & Oi & Or).
  pose proof (draw_in_range (transport c) g0 0 Ot Hu0) as Ht.
  pose proof (draw_in_range (industrial c) g0 1 Oi Hu0) as Hi.
  pose proof (draw_in_range (residential c) g0 2 Or Hu0) as Hr.
  set (te := draw (transport c) g0 0) in *.
  set (ie := draw (industrial c) g0 1) in *.
  set (re := draw (residential c) g0 2) in *.
  set (T := round2 (sum [te; ie; re])).
  assert (HT : (T == te + ie + re)%Q) by apply round2_sum_of_rounded.
  assert (Hpos : (0 < T)%Q).
  { rewrite HT. unfold in_range in Ht, Hi, Hr.
    assert (0 < inject_Z (min (transport c)))%Q
      by (unfold c; destruct (classify district); reflexivity).
    assert (0 < inject_Z (min (industrial c)))%Q
      by (unfold c; destruct (classify district); reflexivity).
    assert (0 < inject_Z (min (residential c)))%Q
      by (unfold c; destruct (classify district); reflexivity).
    lra. }
  assert (HT0 : ~ (T == 0)%Q) by (intros E; rewrite E in Hpos; discriminate Hpos).
  pose proof (populated_eq district record g0) as Hp. cbv zeta in Hp.
  fold c te ie re T in Hp.
  assert (Gtot : getitem "total_emission" (populated district record g0)
                 = Some (float_json T)).
  { rewrite Hp. apply getitem_setitem_same. }
  assert (Gt : getitem "transport_emission" (populated district record g0)
               = Some (float_json te)).
  { rewrite Hp. repeat (rewrite getitem_setitem_other by discriminate).
    apply getitem_setitem_same. }
  assert (Gi : getitem "industrial_emission" (populated district record g0)
               = Some (float_json ie)).
  { rewrite Hp. repeat (rewrite getitem_setitem_other by discriminate).
    apply getitem_setitem_same. }
  assert (Gr : getitem "residential_emission" (populated district record g0)
               = Some (float_json re)).
  { rewrite Hp. repeat (rewrite getitem_setitem_other by discriminate).
    apply getitem_setitem_same. }
  exists (view_of district year (populated district record g0)
            (float_json T) te ie re T), te, T.
  split.
  - apply get_emission_by_district_some; try assumption; try reflexivity;
      unfold field_number; [rewrite Gt | rewrite Gi | rewrite Gr]; reflexivity.
  - unfold view_of.
    cbn [ev_transport_emission ev_total_emission ev_breakdown].
    rewrite Gt. repeat split; try apply Ht; try assumption.
    unfold breakdown_sum.
    cbn [transport_percentage industrial_percentage residential_percentage].
    apply breakdown_close; [assumption|]. symmetry. exact HT.
Qed.

Lemma X8_generated_district_is_queryable_witness :
  exists view te T,
    get_emission_by_district "Anekal" "2025"
      (fs (snd (add_emission_data_to_json sample_world))) = Some view
    /\ ev_transport_emission view = float_json te
    /\ in_range (transport (EMISSION_CONFIG (classify "Anekal"))) te
    /\ ev_total_emission view = float_json T
    /\ (0 < T)%Q
    /\ (Qabs (breakdown_sum (ev_breakdown view) - 100) <= 1 # 10)%Q.
Proof.
  apply (X8_generated_district_is_queryable sample_world sample_store
           "2025" "Anekal"
           [ ("timestamp", JStr "2025-01-01T00:00:00");
             ("Kolar", JObj [ ("co2_concentration", int_json 410);
                              ("co2_concentration_after_dispersion", int_json 405);
                              ("transport_emission", float_json 1300);
                              ("industrial_emission", float_json 1250);
                              ("residential_emission", float_json 1350);
                              ("total_emission", float_json 3900) ]);
             ("Anekal", JObj [ ("co2_concentration", int_json 420) ]) ]
           [ ("co2_concentration", int_json 420) ]);
    try reflexivity.
  - exact half_rng_draws.
  - discriminate.
Defined.

(** ** The result loops *)

Lemma stored_entries_all_records items year : forall acc,
  all_records items = true ->
  exists r,
    stored_entries items year acc = Returns (acc ++ r)%list
    /\ Forall2 (dispersion_entry_for year) (districts_of items) r.
Proof.
  induction items as [|[d v] items IH]; simpl; intros acc Hall.
  - exists []. rewrite app_nil_r. split; [reflexivity | constructor].
  - apply andb_true_iff in Hall as [Hv Hall].
    destruct (String.eqb d "timestamp") eqn:Ets; simpl.
    + now apply IH.
    + simpl in Hv. destruct v; try discriminate. simpl.
      match goal with
      | |- context [stored_entries items year ?a] =>
          destruct (IH a Hall) as (r & Hr & HF)
      end.
      eexists (_ :: r). rewrite Hr, <- app_assoc. split; [reflexivity|].
      constructor; [|exact HF]. repeat split.
Qed.

Lemma stored_entries_bad_entry items year : forall acc,
  all_records items = false ->
  exists d v,
    In (d, v) items /\ d <> "timestamp" /\ is_record v = false
    /\ stored_entries items year acc = Raises (no_attribute v "get").
Proof.
  induction items as [|[d v] items IH]; simpl; intros acc Hall;
    [discriminate|].
  destruct (String.eqb d "timestamp") eqn:Ets; simpl in Hall.
  - destruct (IH acc Hall) as (d' & v' & Hin & H).
    exists d', v'. split; [now right | exact H].
  - destruct (is_record v) eqn:Hv; simpl in Hall.
    + destruct v; try discriminate. simpl.
      match goal with
      | |- context [stored_entries items year ?a] =>
          destruct (IH a Hall) as (d' & v' & Hin & H)
      end.
      exists d', v'. split; [now right | exact H].
    + exists d, v. split; [now left|].
      apply String.eqb_neq in Ets. repeat split; try assumption.
      destruct v; try discriminate; reflexivity.
Qed.

Lemma capture_entries_all_records items year : forall acc,
  all_records items = true ->
  exists r,
    capture_entries items year acc = Returns (acc ++ r)%list
    /\ Forall2 (capture_view_for year) (districts_of items) r.
Proof.
  induction items as [|[d v] items IH]; simpl; intros acc Hall.
  - exists []. rewrite app_nil_r. split; [reflexivity | constructor].
  - apply andb_true_iff in Hall as [Hv Hall].
    destruct (String.eqb d "timestamp") eqn:Ets; simpl.
    + now apply IH.
    + simpl in Hv. destruct v; try discriminate. simpl.
      match goal with
      | |- context [capture_entries items year ?a] =>
          destruct (IH a Hall) as (r & Hr & HF)
      end.
      eexists (_ :: r). rewrite Hr, <- app_assoc. split; [reflexivity|].
      constructor; [|exact HF]. repeat split.
Qed.

Lemma capture_entries_bad_entry items year : forall acc,
  all_records items = false ->
  exists d v,
    In (d, v) items /\ d <> "timestamp" /\ is_record v = false
    /\ capture_entries items year acc = Raises (no_attribute v "get").
Proof.
  induction items as [|[d v] items IH]; simpl; intros acc Hall;
    [discriminate|].
  destruct (String.eqb d "timestamp") eqn:Ets; simpl in Hall.
  - destruct (IH acc Hall) as (d' & v' & Hin & H).
    exists d', v'. split; [now right | exact H].
  - destruct (is_record v) eqn:Hv; simpl in Hall.
    + destruct v; try discriminate. simpl.
      match goal with
      | |- context [capture_entries items year ?a] =>
          destruct (IH a Hall) as (d' & v' & Hin & H)
      end.
      exists d', v'. split; [now right | exact H].
    + exists d, v. split; [now left|].
      apply String.eqb_neq in Ets. repeat split; try assumption.
      destruct v; try discriminate; reflexivity.
Qed.

Lemma dispersion_results_of_records
  (year : string) (f : filesystem) (data : store) (year_data : dict json) :
  state_file f = Document data ->
  getitem year data = Some year_data ->
  all_records year_data = true ->
  Forall2 (dispersion_entry_for year) (districts_of year_data)
          (get_dispersion_results year f).
Proof.
  intros Hfile Gy Hall.
  unfold get_dispersion_results, read_json, try_except.
  rewrite Hfile. simpl. rewrite Gy.
  destruct (stored_entries_all_records year_data year [] Hall) as (r & -> & HF).
  exact HF.
Qed.

(** X9: when every entry of the year other than [timestamp] is a
    record, [get_dispersion_results] returns one result per such entry,
    in stored order: the district's name, the year asked for, the
    record's [co2_concentration], [co2_concentration_after_dispersion]
    and [total_emission] (0 for a missing field) and an empty
    [neighbors] list. *)
Theorem X9_dispersion_results_one_per_district
  (year : string) (f : filesystem) (data : store) (year_data : dict json) :
  state_file f = Document data ->
  getitem year data = Some year_data ->
  all_records year_data = true ->
  Forall2 (dispersion_entry_for year) (districts_of year_data)
          (get_dispersion_results year f).
Proof.
  apply dispersion_results_of_records.
Qed.

Lemma X9_dispersion_results_one_per_district_witness :
  Forall2 (dispersion_entry_for "2025")
    (districts_of
       [ ("timestamp", JStr "2025-01-01T00:00:00");
         ("Kolar", JObj [ ("co2_concentration", int_json 410);
                          ("co2_concentration_after_dispersion", int_json 405);
                          ("transport_emission", float_json 1300);
                          ("industrial_emission", float_json 1250);
                          ("residential_emission", float_json 1350);
                          ("total_emission", float_json 3900) ]);
         ("Anekal", JObj [ ("co2_concentration", int_json 420) ]) ])
    (get_dispersion_results "2025" sample_fs).
Proof.
  apply (X9_dispersion_results_one_per_district "2025" sample_fs sample_store);
    reflexivity.
Defined.

(** X10: when every entry of the year other than [timestamp] is a
    record, [get_capture_results] returns one view per such entry, in
    stored order: the district's name, the year asked for, the record's
    four capture figures and [total_emission] (0 for a missing field)
    and its [interventions] (an empty dict when missing). *)
Theorem X10_capture_results_one_per_district
  (year : string) (f : filesystem) (data : store) (year_data : dict json) :
  state_file f = Document data ->
  getitem year data = Some year_data ->
  all_records year_data = true ->
  Forall2 (capture_view_for year) (districts_of year_data)
          (get_capture_results year f).
Proof.
  intros Hfile Gy Hall.
  unfold get_capture_results, read_json, try_except.
  rewrite Hfile. simpl. rewrite Gy.
  destruct (capture_entries_all_records year_data year [] Hall) as (r & -> & HF).
  exact HF.
Qed.

Lemma X10_capture_results_one_per_district_witness :
  Forall2 (capture_view_for "2025")
    (districts_of
       [ ("timestamp", JStr "2025-01-01T00:00:00");
         ("Kolar", JObj [ ("co2_concentration", int_json 410);
                          ("co2_concentration_after_dispersion", int_json 405);
                          ("transport_emission", float_json 1300);
                          ("industrial_emission", float_json 1250);
                          ("residential_emission", float_json 1350);
                          ("total_emission", float_json 3900) ]);
         ("Anekal", JObj [ ("co2_concentration", int_json 420) ]) ])
    (get_capture_results "2025" sample_fs).
Proof.
  apply (X10_capture_results_one_per_district "2025" sample_fs sample_store);
    reflexivity.
Defined.

(** X11: a single entry of the year, other than [timestamp], that is
    not a record empties both result queries: [get_dispersion_results]
    and [get_capture_results] return the empty list, the results of the
    well-formed districts included. *)
Theorem X11_one_bad_entry_empties_the_results
  (year : string) (f : filesystem) (data : store) (year_data : dict json) :
  state_file f = Document data ->
  getitem year data = Some year_data ->
  all_records year_data = false ->
  get_dispersion_results year f = []
  /\ get_capture_results year f = [].
Proof.
  intros Hfile Gy Hall.
  unfold get_dispersion_results, get_capture_results, read_json, try_except.
  rewrite Hfile. simpl. rewrite Gy.
  destruct (stored_entries_bad_entry year_data year [] Hall)
    as (d & v & _ & _ & _ & ->).
  destruct (capture_entries_bad_entry year_data year [] Hall)
    as (d' & v' & _ & _ & _ & ->).
  split; reflexivity.
Qed.

Lemma X11_one_bad_entry_empties_the_results_witness :
  get_dispersion_results "2025" (fs blocked_world) = []
  /\ get_capture_results "2025" (fs blocked_world) = [].
Proof.
  apply (X11_one_bad_entry_empties_the_results "2025" (fs blocked_world)
           [ ("2025", [ ("Kolar", JObj []); ("Anekal", JNull) ]) ]
           [ ("Kolar", JObj []); ("Anekal", JNull) ]);
    reflexivity.
Defined.

(** ** The dispersion runner after a successful kernel run *)

(** X12: when the kernel exits with status 0 and leaves a readable
    state file holding the year, [run_dispersion_simulation] succeeds
    exactly when every entry of the year other than [timestamp] is a
    record: it then echoes its parameters, returns one result per such
    entry and counts them in [total_districts]; otherwise it returns
    only an error naming the type of an entry that is not a record. *)
Theorem X12_run_outcome_after_kernel_success
  (node : kernel) (steps : Z) (wind_speed : number)
  (wind_direction year : string) (fs0 fs1 : filesystem)
  (p : completed_process) (data : store) (year_data : dict json) :
  node {| arg_steps := steps; arg_wind_speed := wind_speed;
          arg_wind_direction := wind_direction |} fs0 = (Returns p, fs1) ->
  returncode p = 0%Z ->
  state_file fs1 = Document data ->
  getitem year data = Some year_data ->
  if all_records year_data
  then exists results,
         run_dispersion_simulation node steps wind_speed wind_direction year fs0
         = (Succeeded {| sp_steps := steps;
                         sp_wind := {| speed := wind_speed;
                                       direction := wind_direction |};
                         sp_year := year |}
                      results (List.length (districts_of year_data)), fs1)
         /\ Forall2 (dispersion_entry_for year) (districts_of year_data) results
  else exists d v,
         In (d, v) year_data /\ d <> "timestamp" /\ is_record v = false
         /\ run_dispersion_simulation node steps wind_speed wind_direction year fs0
            = (Failed ("Error running dispersion simulation: '"
                         ++ type_name v ++ "' object has no attribute 'get'"),
               fs1).
Proof.
  intros Hrun Hcode Hfile Gy.
  unfold run_dispersion_simulation. rewrite Hrun. simpl.
  rewrite Hcode. simpl. unfold read_json. rewrite Hfile. simpl. rewrite Gy.
  rewrite simulation_entries_stored_entries.
  destruct (all_records year_data) eqn:Hall.
  - destruct (stored_entries_all_records year_data year [] Hall)
      as (r & -> & HF).
    exists r. simpl. rewrite (Forall2_length HF). split; [reflexivity | exact HF].
  - destruct (stored_entries_bad_entry year_data year [] Hall)
      as (d & v & Hin & Hts & Hrec & ->).
    exists d, v. repeat split; assumption.
Qed.

Lemma X12_run_outcome_after_kernel_success_witness :
  exists d v,
    In (d, v) [ ("Kolar", JObj []); ("Anekal", JNull) ]
    /\ d <> "timestamp" /\ is_record v = false
    /\ run_dispersion_simulation (quiet_kernel 0 "") 20 (PyInt 5) "NE" "2025"
         (fs blocked_world)
       = (Failed ("Error running dispersion simulation: '"
                    ++ type_name v ++ "' object has no attribute 'get'"),
          fs blocked_world).
Proof.
  apply (X12_run_outcome_after_kernel_success (quiet_kernel 0 "")
           20 (PyInt 5) "NE" "2025" (fs blocked_world) (fs blocked_world)
           {| returncode := 0; stdout := ""; stderr := "" |}
           [ ("2025", [ ("Kolar", JObj []); ("Anekal", JNull) ]) ]
           [ ("Kolar", JObj []); ("Anekal", JNull) ]);
    reflexivity.
Defined.

(** ** The result sets against each other *)

Lemma Forall2_map_left {A B C} (R : A -> B -> Prop) (f : A -> C) (g : B -> C)
  (l : list A) (l' : list B) :
  (forall a b, R a b -> g b = f a) ->
  Forall2 R l l' -> map g l' = map f l.
Proof.
  intros H HF. induction HF as [|a b l l' Hab _ IH]; simpl; [reflexivity|].
  now rewrite (H a b Hab), IH.
Qed.

Lemma Forall2_In_left {A B} (R : A -> B -> Prop) (l : list A) (l' : list B)
  (a : A) :
  Forall2 R l l' -> In a l -> exists b, In b l' /\ R a b.
Proof.
  intros HF. induction HF as [|x y l l' Hxy _ IH]; simpl; [contradiction|].
  intros [-> | Hin].
  - exists y. auto.
  - destruct (IH Hin) as (b & Hb & Hab). exists b. auto.
Qed.

(** X13: for every state file and year, [get_capture_results] and
    [get_dispersion_results] list the same districts in the same
    order. *)
Theorem X13_capture_and_dispersion_list_the_same_districts
  (year : string) (f : filesystem) :
  map cv_district (get_capture_results year f)
  = map de_district (get_dispersion_results year f).
Proof.
  unfold get_capture_results, get_dispersion_results, read_json, try_except.
  destruct (state_file f) as [data|e]; simpl; [|reflexivity].
  destruct (getitem year data) as [yd|]; [|reflexivity].
  destruct (all_records yd) eqn:Hall.
  - destruct (stored_entries_all_records yd year [] Hall) as (r & -> & HF).
    destruct (capture_entries_all_records yd year [] Hall) as (r' & -> & HF').
    simpl.
    rewrite (Forall2_map_left _ fst de_district _ _
               (fun a b H => proj1 H) HF).
    rewrite (Forall2_map_left _ fst cv_district _ _
               (fun a b H => proj1 H) HF').
    reflexivity.
  - destruct (stored_entries_bad_entry yd year [] Hall)
      as (d & v & _ & _ & _ & ->).
    destruct (capture_entries_bad_entry yd year [] Hall)
      as (d' & v' & _ & _ & _ & ->).
    reflexivity.
Qed.

(** X14: when every entry of the year other than [timestamp] is a
    record, each view returned by [get_all_districts_emission_data] has
    a result for the same district in [get_dispersion_results], carrying
    the same [total_emission]. *)
Theorem X14_emission_views_agree_with_dispersion_results
  (year : string) (f : filesystem) (data : store) (year_data : dict json)
  (view : emission_view) :
  state_file f = Document data ->
  getitem year data = Some year_data ->
  all_records year_data = true ->
  In view (get_all_districts_emission_data year f) ->
  exists e,
    In e (get_dispersion_results year f)
    /\ de_district e = ev_district view
    /\ de_total_emission e = ev_total_emission view.
Proof.
  intros Hfile Gy Hall Hin.
  unfold get_all_districts_emission_data, load_emission_data, read_json,
    try_except in Hin.
  rewrite Hfile in Hin. simpl in Hin. rewrite Gy in Hin.
  rewrite collect_emissions_flat_map in Hin. simpl in Hin.
  apply in_flat_map in Hin. destruct Hin as (d & Hd & Hv).
  destruct (String.eqb d "timestamp") eqn:Ets; [contradiction|].
  destruct (get_emission_by_district d year f) as [v|] eqn:Gv;
    [|contradiction].
  destruct Hv as [-> | []].
  apply get_emission_by_district_inv in Gv.
  destruct Gv as (record & total & t & i & r & T & Hst & Gt & _ & _ & _ & _ & _ & ->).
  unfold stored_entry in Hst. rewrite Hfile, Gy in Hst.
  assert (Hpair : In (d, JObj record) (districts_of year_data)).
  { apply filter_In. split; [now apply getitem_In|]. simpl. now rewrite Ets. }
  pose proof (dispersion_results_of_records year f data year_data Hfile Gy Hall) as HF.
  destruct (Forall2_In_left _ _ _ _ HF Hpair) as (e & He & Hd1 & _ & _ & _ & Htot & _).
  exists e. split; [assumption|]. split; [exact Hd1|].
  simpl in Htot. rewrite Gt in Htot. injection Htot as <-. reflexivity.
Qed.

Lemma X14_emission_views_agree_with_dispersion_results_witness :
  exists view e,
    get_emission_by_district "Kolar" "2025" sample_fs = Some view
    /\ In e (get_dispersion_results "2025" sample_fs)
    /\ de_district e = ev_district view
    /\ de_total_emission e = ev_total_emission view.
Proof.
  destruct (get_emission_by_district "Kolar" "2025" sample_fs) as [view|] eqn:G;
    [|vm_compute in G; discriminate].
  assert (Hin : In view (get_all_districts_emission_data "2025" sample_fs)).
  { rewrite get_all_districts_as_flat_map.
    change (getitem "2025" (load_emission_data sample_fs))
      with (Some [ ("timestamp", JStr "2025-01-01T00:00:00");
                   ("Kolar", JObj [ ("co2_concentration", int_json 410);
                                    ("co2_concentration_after_dispersion", int_json 405);
                                    ("transport_emission", float_json 1300);
                                    ("industrial_emission", float_json 1250);
                                    ("residential_emission", float_json 1350);
                                    ("total_emission", float_json 3900) ]);
                   ("Anekal", JObj [ ("co2_concentration", int_json 420) ]) ]).
    apply in_flat_map. exists "Kolar". split; [simpl; auto|].
    change (String.eqb "Kolar" "timestamp") with false. cbv iota.
    rewrite G. now left. }
  destruct (X14_emission_views_agree_with_dispersion_results
              "2025" sample_fs sample_store
              [ ("timestamp", JStr "2025-01-01T00:00:00");
                ("Kolar", JObj [ ("co2_concentration", int_json 410);
                                 ("co2_concentration_after_dispersion", int_json 405);
                                 ("transport_emission", float_json 1300);
                                 ("industrial_emission", float_json 1250);
                                 ("residential_emission", float_json 1350);
                                 ("total_emission", float_json 3900) ]);
                ("Anekal", JObj [ ("co2_concentration", int_json 420) ]) ]
              view eq_refl eq_refl eq_refl Hin) as (e & He & Hd & Ht).
  exists view, e. auto.
Defined.

(** ** The capture, workflow and comparison runners *)

(** X15: [compare_scenarios] does not hand the year to the kernel, and
    with a list of two names [a, b] it starts the very command
    [run_complete_workflow] starts for scenario [a] and year [b]: the
    state file afterwards and success or failure are the same for the
    two calls, whatever the year and the workflow's two configs. *)
Theorem X15_two_name_comparison_runs_the_workflow_command
  (node : subprocess) (a b year dispersion_config capture_config : json)
  (f : filesystem) :
  snd (compare_scenarios node (JArr [a; b]) year f)
  = snd (run_complete_workflow node a b dispersion_config capture_config f)
  /\ comparison_succeeded (fst (compare_scenarios node (JArr [a; b]) year f))
     = stage_succeeded
         (fst (run_complete_workflow node a b dispersion_config capture_config f)).
Proof.
  unfold compare_scenarios, run_complete_workflow. simpl.
  destruct (node [JStr "node"; JStr "dashboard.js"; a; b] f) as [[p|e] f1];
    simpl; [|auto].
  destruct (negb (returncode p =? 0)%Z); auto.
Qed.

Lemma stage_status (ran : result completed_process) (failed raised : string)
  (scenario_name year : json) :
  let outcome :=
    try_except
      (result <- ran ;;
       if negb (Z.eqb (returncode result) 0)
       then Returns (StageFailed (failed ++ stderr result))
       else Returns (StageSucceeded scenario_name year))
      (fun e => StageFailed (raised ++ str_exn e)) in
  (outcome = StageSucceeded scenario_name year
   <-> exists p, ran = Returns p /\ returncode p = 0%Z)
  /\ (forall p, ran = Returns p -> returncode p <> 0%Z ->
      outcome = StageFailed (failed ++ stderr p)).
Proof.
  destruct ran as [p|e]; simpl.
  - destruct (returncode p =? 0)%Z eqn:E; simpl; split.
    + split; [|reflexivity]. intros _. exists p.
      split; [reflexivity | now apply Z.eqb_eq].
    + intros q Hq Hc. injection Hq as <-. apply Z.eqb_neq in Hc. congruence.
    + split; [discriminate|]. intros (q & Hq & Hc). injection Hq as <-.
      apply Z.eqb_eq in Hc. congruence.
    + intros q Hq _. now injection Hq as <-.
  - split; [split; [discriminate | intros (q & Hq & _); discriminate]|].
    intros q Hq. discriminate.
Qed.

(** X16: [run_capture_simulation] and [run_complete_workflow] return
    the success acknowledgement, echoing scenario and year, exactly
    when the process was started and exited with status 0; the state
    file afterwards is the one the process left, and a non-zero exit
    gives an error ending in the process's stderr. *)
Theorem X16_stage_runners_report_the_exit_status
  (node : subprocess) (scenario_name year dispersion_config capture_config : json)
  (f : filesystem) :
  let capture := node [JStr "node"; JStr "captureSimulation.js";
                       scenario_name; year] f in
  let workflow := node [JStr "node"; JStr "dashboard.js";
                        scenario_name; year] f in
  (fst (run_capture_simulation node scenario_name year f)
   = StageSucceeded scenario_name year
   <-> exists p, fst capture = Returns p /\ returncode p = 0%Z)
  /\ snd (run_capture_simulation node scenario_name year f) = snd capture
  /\ (forall p, fst capture = Returns p -> returncode p <> 0%Z ->
        fst (run_capture_simulation node scenario_name year f)
        = StageFailed ("Capture simulation failed: " ++ stderr p))
  /\ (fst (run_complete_workflow node scenario_name year
             dispersion_config capture_config f)
      = StageSucceeded scenario_name year
      <-> exists p, fst workflow = Returns p /\ returncode p = 0%Z)
  /\ snd (run_complete_workflow node scenario_name year
            dispersion_config capture_config f) = snd workflow
  /\ (forall p, fst workflow = Returns p -> returncode p <> 0%Z ->
        fst (run_complete_workflow node scenario_name year
               dispersion_config capture_config f)
        = StageFailed ("Complete workflow failed: " ++ stderr p)).
Proof.
  intros capture workflow.
  unfold run_capture_simulation, run_complete_workflow.
  fold capture workflow.
  destruct capture as [ran f1]. destruct workflow as [ran' f1']. simpl.
  destruct (stage_status ran "Capture simulation failed: "
              "Error running capture simulation: " scenario_name year)
    as [Hc1 Hc2].
  destruct (stage_status ran' "Complete workflow failed: "
              "Error running complete workflow: " scenario_name year)
    as [Hw1 Hw2].
  repeat split; try apply Hc1; try apply Hw1; assumption.
Qed.

(** ** The read-only endpoints *)

(** X17: with the emission module importable, the district endpoint
    answers 200 with the view when [get_emission_by_district] returns
    one, and otherwise 404 "District not found" (never 500); the 404
    covers an unavailable state file and a district whose stored
    [total_emission] is the number 0. *)
Theorem X17_district_endpoint_answers_200_or_404
  (env : app.environment) (r : app.request) (district : string)
  (f : filesystem) :
  app.import_emission_utils env = Returns tt ->
  let not_found := {| app.body := app.ErrorPayload "District not found";
                      app.status := 404 |} in
  (forall view,
     get_emission_by_district district (app.year_arg r) f = Some view ->
     app.get_district_emissions env r district f
     = {| app.body := app.EmissionPayload view; app.status := 200 |})
  /\ (get_emission_by_district district (app.year_arg r) f = None ->
      app.get_district_emissions env r district f = not_found)
  /\ (forall e, state_file f = Unavailable e ->
      app.get_district_emissions env r district f = not_found)
  /\ (forall record total T,
        stored_entry f (app.year_arg r) district = Some (JObj record) ->
        getitem "total_emission" record = Some total ->
        as_number total = Some T -> (T == 0)%Q ->
        app.get_district_emissions env r district f = not_found).
Proof.
  intros Himp not_found.
  assert (Hsome : forall view,
             get_emission_by_district district (app.year_arg r) f = Some view ->
             app.get_district_emissions env r district f
             = {| app.body := app.EmissionPayload view; app.status := 200 |}).
  { intros view H. unfold app.get_district_emissions, app.load_emission_data.
    rewrite Himp. simpl. now rewrite H. }
  assert (Hnone : get_emission_by_district district (app.year_arg r) f = None ->
                  app.get_district_emissions env r district f = not_found).
  { intros H. unfold app.get_district_emissions, app.load_emission_data.
    rewrite Himp. simpl. now rewrite H. }
  split; [exact Hsome|]. split; [exact Hnone|]. split.
  - intros e He. apply Hnone.
    unfold get_emission_by_district, get_emission_by_district_body,
      load_emission_data, read_json. now rewrite He.
  - intros record total T Hst Gt HT HT0. apply Hnone.
    destruct (get_emission_by_district district (app.year_arg r) f)
      as [view|] eqn:G; [|reflexivity].
    apply get_emission_by_district_inv in G.
    destruct G as (record' & total' & _ & _ & _ & T' & Hst' & Gt' & HT' & HT0' & _).
    exfalso. apply HT0'.
    assert (record' = record) by congruence. subst record'.
    assert (total' = total) by congruence. subst total'.
    assert (T' = T) by congruence. now subst T'.
Qed.

Lemma X17_district_endpoint_answers_200_or_404_witness :
  app.get_district_emissions importing {| app.args := [] |} "Kolar" zero_total_fs
  = {| app.body := app.ErrorPayload "District not found"; app.status := 404 |}.
Proof.
  eapply (proj2 (proj2 (proj2
            (X17_district_endpoint_answers_200_or_404
               importing {| app.args := [] |} "Kolar" zero_total_fs eq_refl))));
    reflexivity.
Defined.

(** X18: with the modules importable, the three listing endpoints
    answer 200 for an unavailable state file as well: the body holds the
    year asked for ("2025" when the request names none), an empty list
    and a count of 0, and no error. *)
Theorem X18_listing_endpoints_hide_an_unavailable_file
  (env : app.environment) (r : app.request) (scenario_name : string)
  (f : filesystem) (e : exn) :
  app.import_emission_utils env = Returns tt ->
  app.import_dispersion_utils env = Returns tt ->
  state_file f = Unavailable e ->
  app.get_all_emissions env r f
  = {| app.body := app.AllEmissionsPayload (app.year_arg r) [] 0;
       app.status := 200 |}
  /\ app.get_dispersion_results env r f
     = {| app.body := app.DispersionResultsPayload (app.year_arg r) [] 0;
          app.status := 200 |}
  /\ app.get_capture_results env r scenario_name f
     = {| app.body := app.CaptureResultsPayload scenario_name (app.year_arg r) [] 0;
          app.status := 200 |}.
Proof.
  intros Hem Hdi Hfile.
  unfold app.get_all_emissions, app.get_dispersion_results,
    app.get_capture_results, app.load_emission_data, app.load_dispersion_model.
  rewrite Hem, Hdi. simpl.
  unfold get_all_districts_emission_data, load_emission_data,
    get_dispersion_results, get_capture_results, read_json.
  rewrite Hfile. simpl. auto.
Qed.

Lemma X18_listing_endpoints_hide_an_unavailable_file_witness :
  app.get_all_emissions importing {| app.args := [("year", "2024")] |} missing_fs
  = {| app.body := app.AllEmissionsPayload "2024" [] 0; app.status := 200 |}
  /\ app.get_dispersion_results importing {| app.args := [("year", "2024")] |}
       missing_fs
     = {| app.body := app.DispersionResultsPayload "2024" [] 0;
          app.status := 200 |}
  /\ app.get_capture_results importing {| app.args := [("year", "2024")] |}
       "baseline" missing_fs
     = {| app.body := app.CaptureResultsPayload "baseline" "2024" [] 0;
          app.status := 200 |}.
Proof.
  apply (X18_listing_endpoints_hide_an_unavailable_file importing
           {| app.args := [("year", "2024")] |} "baseline" missing_fs
           (Exn OSError "[Errno 2] No such file or directory"));
    reflexivity.
Defined.
